(** * Segmodel: the IoU metric of [util/iou.py]

    [util/iou.py] defines the class [IoU] twice.  The first definition
    (lines 7-92) is the torchnet-style metric built on a [ConfusionMatrix]
    collaborator, with asserts on the input shapes and an optional
    [ignore_index].  The second definition (lines 94-143) rebinds the name
    [IoU]: it keeps its own histogram [hist], fills it with [fast_hist] and
    derives the statistics with [per_class_iu] and [per_class_PA].  Both are
    embedded here, the first as [MetricIoU], the second as [IoU].

    Conventions of the embedding:
    - class indices and counts are integers ([Z]); the histogram is a
      float64 array in the source, which holds every count below 2^53
      exactly, so its arithmetic is integer arithmetic;
    - the result of a numpy true division is an [npfloat]: not-a-number,
      an infinity, or the exact quotient as a reduced rational (the rounding
      of the quotient to binary64 is not represented);
    - a raised Python exception is the [Raise] case of [result]; an
      operation that raises leaves the object it was called on as it was;
    - [print] calls are recorded as a list of [event]s. *)

From Stdlib Require Import String.
From Stdlib Require Import ZArith List QArith Qreduction Lia Bool Permutation.
Import ListNotations.
Open Scope Z_scope.

(** ** Exceptions and fallible computations *)

Inductive exn : Type :=
| AssertionError (msg : string)
| ValueError
| IndexError
| TypeError.

Inductive result (A : Type) : Type :=
| Ok (a : A)
| Raise (e : exn).
Arguments Ok {A} a.
Arguments Raise {A} e.

Definition bind {A B : Type} (r : result A) (f : A -> result B) : result B :=
  match r with
  | Ok a => f a
  | Raise e => Raise e
  end.

Notation "'do' x <- c1 ; c2" := (bind c1 (fun x => c2))
  (at level 60, x name, c1 at next level, right associativity).

(** ** The numpy operations the metric uses *)

Module Np.

Abbreviation vector := (list Z).
Abbreviation matrix := (list (list Z)).

(** Value of a float64 produced by a division. *)
Inductive npfloat : Type :=
| NaN
| PInf
| NInf
| Fin (q : Q).

Definition is_nan (x : npfloat) : bool :=
  match x with NaN => true | _ => false end.

Definition fadd (x y : npfloat) : npfloat :=
  match x, y with
  | NaN, _ | _, NaN => NaN
  | PInf, NInf | NInf, PInf => NaN
  | PInf, _ | _, PInf => PInf
  | NInf, _ | _, NInf => NInf
  | Fin p, Fin q => Fin (Qred (p + q))
  end.

(** [x / d] for a float [x] and an integer [d], with the division
    warnings silenced: [0/0] is NaN and [x/0] an infinity. *)
Definition fdiv (x : npfloat) (d : Z) : npfloat :=
  match x with
  | NaN => NaN
  | PInf => if 0 <=? d then PInf else NInf
  | NInf => if 0 <=? d then NInf else PInf
  | Fin q =>
      if d =? 0 then
        match Qnum q ?= 0 with
        | Eq => NaN
        | Gt => PInf
        | Lt => NInf
        end
      else Fin (Qred (q / inject_Z d))
  end.

(** [x / y] on two integer-valued array entries. *)
Definition true_divide (x y : Z) : npfloat := fdiv (Fin (inject_Z x)) y.

Definition zip_with {A B C : Type} (f : A -> B -> C) (xs : list A) (ys : list B)
  : list C :=
  map (fun p => f (fst p) (snd p)) (combine xs ys).

Definition vadd (u v : vector) : vector := zip_with Z.add u v.
Definition vsub (u v : vector) : vector := zip_with Z.sub u v.
Definition vdiv (u v : vector) : list npfloat := zip_with true_divide u v.

(** [np.maximum(v, m)] *)
Definition maximum (v : vector) (m : Z) : vector := map (fun x => Z.max x m) v.

Definition vsum (v : vector) : Z := fold_right Z.add 0 v.

(** Entry [(i, j)]; the default is never reached inside the array. *)
Definition entry (M : matrix) (i j : nat) : Z := nth j (nth i M []) 0.

Definition ncols (M : matrix) : nat := length (hd [] M).

Definition column (M : matrix) (j : nat) : vector := map (fun r => nth j r 0) M.

(** [np.diag(M)] of a square array. *)
Definition diag (M : matrix) : vector :=
  map (fun i => entry M i i) (seq 0 (length M)).

(** [M.sum(1)]: one sum per row. *)
Definition sum1 (M : matrix) : vector := map vsum M.

(** [M.sum(0)]: one sum per column. *)
Definition sum0 (M : matrix) : vector :=
  map (fun j => vsum (column M j)) (seq 0 (ncols M)).

(** [v[1:]] *)
Definition from1 {A : Type} (v : list A) : list A := tl v.

(** [np.zeros((r, c))] *)
Definition zeros (r c : nat) : matrix := repeat (repeat 0 c) r.

(** Elementwise sum of two arrays of one shape ([+=]). *)
Definition madd (M H : matrix) : matrix := zip_with vadd M H.

(** [np.nanmean]: NaN entries are replaced by zero and summed, and the
    sum is divided by the number of entries that were not NaN; with no
    such entry the result is [0/0]. *)
Definition replace_nan (xs : list npfloat) : list npfloat :=
  map (fun x => if is_nan x then Fin 0 else x) xs.

Definition fsum (xs : list npfloat) : npfloat := fold_right fadd (Fin 0) xs.

Definition count_not_nan (xs : list npfloat) : nat :=
  length (filter (fun x => negb (is_nan x)) xs).

Definition nanmean (xs : list npfloat) : npfloat :=
  fdiv (fsum (replace_nan xs)) (Z.of_nat (count_not_nan xs)).

(** [np.bincount(x, minlength=m)]: raises on a negative entry; the
    result has [max(m, max(x)+1)] bins and bin [i] counts the entries
    equal to [i]. *)
Definition amax1 (x : list Z) : Z := fold_right Z.max (-1) x + 1.

Definition bincount (x : list Z) (minlength : nat) : result vector :=
  if existsb (fun v => v <? 0) x then Raise ValueError
  else
    Ok (map (fun i => Z.of_nat (count_occ Z.eq_dec x (Z.of_nat i)))
            (seq 0 (Nat.max minlength (Z.to_nat (amax1 x))))).

(** [count] consecutive pieces of [size] entries each. *)
Fixpoint chunks {A : Type} (count size : nat) (l : list A) : list (list A) :=
  match count with
  | O => []
  | S c => firstn size l :: chunks c size (skipn size l)
  end.

(** [v.reshape(r, c)]: raises unless [v] has exactly [r*c] entries. *)
Definition reshape (v : vector) (r c : nat) : result matrix :=
  if (length v =? r * c)%nat then Ok (chunks r c v) else Raise ValueError.

(** [x[k]] for a boolean mask [k]: raises unless the lengths agree. *)
Definition mask_index (x : list Z) (k : list bool) : result (list Z) :=
  if (length x =? length k)%nat
  then Ok (map fst (filter snd (combine x k)))
  else Raise IndexError.

End Np.

Import Np.

(** ** The torch tensors handed to [add] *)

Module Torch.

(** A tensor is its shape and its entries in row-major order.  Entries
    are integers: class indices, or integer scores for the four
    dimensional layout. *)
Record tensor : Type := { shape : list nat; data : list Z }.

Definition numel (s : list nat) : nat := fold_right Nat.mul 1%nat s.

Definition well_formed (x : tensor) : Prop :=
  length (data x) = numel (shape x).

(** [x.dim()] *)
Definition dim (x : tensor) : nat := length (shape x).

(** [x.size(d)] *)
Definition size (x : tensor) (d : nat) : result nat :=
  match nth_error (shape x) d with
  | Some n => Ok n
  | None => Raise IndexError
  end.

(** [x.flatten()] and [x.view(-1)] *)
Definition flatten (x : tensor) : list Z := data x.

(** Index of the first maximal entry. *)
Fixpoint argmax_from (best_i : nat) (best : Z) (i : nat) (xs : list Z) : nat :=
  match xs with
  | [] => best_i
  | x :: rest =>
      if best <? x then argmax_from i x (S i) rest
      else argmax_from best_i best (S i) rest
  end.

Definition argmax (xs : list Z) : nat :=
  match xs with
  | [] => O
  | x :: rest => argmax_from O x 1%nat rest
  end.

(** The indices returned by [max] over the leading axis of one example:
    [block] holds [k] planes of [inner] entries each. *)
Definition argmax_planes (k inner : nat) (block : list Z) : list Z :=
  map (fun j =>
         Z.of_nat (argmax (map (fun c => nth (c * inner + j) block 0) (seq 0 k))))
      (seq 0 inner).

(** [_, x = x.max(1)]: the indices of the maxima along axis 1. *)
Definition max1 (x : tensor) : result tensor :=
  match shape x with
  | n :: k :: rest =>
      if (k =? 0)%nat then Raise IndexError
      else
        let inner := numel rest in
        Ok {| shape := n :: rest;
              data := concat (map (argmax_planes k inner)
                                  (chunks n (k * inner) (data x))) |}
  | _ => Raise IndexError
  end.

(** [torch.cat([x, y])]: concatenation along the batch axis. *)
Definition cat (x y : tensor) : result tensor :=
  match shape x, shape y with
  | n :: rest, m :: rest' =>
      if list_eq_dec Nat.eq_dec rest rest'
      then Ok {| shape := (n + m)%nat :: rest; data := data x ++ data y |}
      else Raise ValueError
  | _, _ => Raise ValueError
  end.

End Torch.

Import Torch.

(** ** The first definition of [IoU] (lines 7-92) *)

Module MetricIoU.

(** The [ignore_index] argument of the constructor: [None], an int,
    an iterable of ints, or an object that cannot be iterated. *)
Inductive ignore_arg : Type :=
| IgnoreNone
| IgnoreInt (i : Z)
| IgnoreIter (l : list Z)
| IgnoreOther.

(** A numpy index into an axis of [n] entries: negative indices count
    from the end, anything else out of range raises. *)
Definition norm_index (n : nat) (i : Z) : result nat :=
  if (0 <=? i) && (i <? Z.of_nat n) then Ok (Z.to_nat i)
  else if (- Z.of_nat n <=? i) && (i <? 0) then Ok (Z.to_nat (i + Z.of_nat n))
  else Raise IndexError.

Fixpoint norm_indices (n : nat) (l : list Z) : result (list nat) :=
  match l with
  | [] => Ok []
  | i :: rest =>
      do j <- norm_index n i;
      do js <- norm_indices n rest;
      Ok (j :: js)
  end.

Definition mem (i : nat) (l : list nat) : bool := existsb (Nat.eqb i) l.

(** [M[:, idx] = 0] *)
Definition zero_columns (M : matrix) (idx : list Z) : result matrix :=
  do js <- norm_indices (ncols M) idx;
  Ok (map (fun r =>
             map (fun p => if mem (fst p) js then 0 else snd p)
                 (combine (seq 0 (length r)) r))
          M).

(** [M[idx, :] = 0] *)
Definition zero_rows (M : matrix) (idx : list Z) : result matrix :=
  do rows <- norm_indices (length M) idx;
  Ok (map (fun p => if mem (fst p) rows then repeat 0 (length (snd p)) else snd p)
          (combine (seq 0 (length M)) M)).

(** Lines 81-83 of [value]. *)
Definition apply_ignore (ignore_index : option (list Z)) (conf_matrix : matrix)
  : result matrix :=
  match ignore_index with
  | None => Ok conf_matrix
  | Some idx =>
      do M <- zero_columns conf_matrix idx;
      zero_rows M idx
  end.

(** Lines 84-86 of [value]. *)
Definition true_positive (conf_matrix : matrix) : vector := diag conf_matrix.

Definition false_positive (conf_matrix : matrix) : vector :=
  vsub (sum0 conf_matrix) (true_positive conf_matrix).

Definition false_negative (conf_matrix : matrix) : vector :=
  vsub (sum1 conf_matrix) (true_positive conf_matrix).

(** Line 90 of [value]. *)
Definition iou (conf_matrix : matrix) : list npfloat :=
  vdiv (true_positive conf_matrix)
       (vadd (vadd (true_positive conf_matrix) (false_positive conf_matrix))
             (false_negative conf_matrix)).

(** The body of [value] from line 81 on, given the array that
    [self.conf_metric.value()] returned. *)
Definition value_of (ignore_index : option (list Z)) (conf_matrix : matrix)
  : result (list npfloat * npfloat) :=
  do M <- apply_ignore ignore_index conf_matrix;
  Ok (iou M, nanmean (iou M)).

Definition msg_batch : string :=
  "number of targets and predicted outputs do not match".
Definition msg_predicted : string :=
  "predictions must be of dimension (N, H, W) or (N, K, H, W)".
Definition msg_target : string :=
  "targets must be of dimension (N, H, W) or (N, K, H, W)".

Section Collaborator.

(** The class [ConfusionMatrix] of [util/confusionmatrix.py] is imported
    by the file and taken here as given: its state, its constructor and
    its three methods.  [conf_value] returns the array of counts (the
    object is not normalized). *)
Variable ConfusionMatrix : Type.
Variable conf_new : nat -> bool -> ConfusionMatrix.
Variable conf_reset : ConfusionMatrix -> ConfusionMatrix.
Variable conf_add : ConfusionMatrix -> list Z -> list Z -> result ConfusionMatrix.
Variable conf_value : ConfusionMatrix -> matrix.

Record t : Type :=
  { conf_metric : ConfusionMatrix; ignore_index : option (list Z) }.

Definition __init__ (num_classes : nat) (normalized : bool)
           (ignore_index : ignore_arg) : result t :=
  let conf := conf_new num_classes normalized in
  match ignore_index with
  | IgnoreNone => Ok {| conf_metric := conf; ignore_index := None |}
  | IgnoreInt i => Ok {| conf_metric := conf; ignore_index := Some [i] |}
  | IgnoreIter l => Ok {| conf_metric := conf; ignore_index := Some l |}
  | IgnoreOther => Raise ValueError
  end.

Definition reset (self : t) : t :=
  {| conf_metric := conf_reset (conf_metric self);
     ignore_index := ignore_index self |}.

Definition add (self : t) (predicted target : tensor) : result t :=
  do np <- size predicted 0;
  do nt <- size target 0;
  if negb (np =? nt)%nat then Raise (AssertionError msg_batch)
  else if negb ((dim predicted =? 3) || (dim predicted =? 4))%nat
  then Raise (AssertionError msg_predicted)
  else if negb ((dim target =? 3) || (dim target =? 4))%nat
  then Raise (AssertionError msg_target)
  else
    do predicted <- (if (dim predicted =? 4)%nat then max1 predicted
                     else Ok predicted);
    do target <- (if (dim target =? 4)%nat then max1 target else Ok target);
    do conf <- conf_add (conf_metric self) (flatten predicted) (flatten target);
    Ok {| conf_metric := conf; ignore_index := ignore_index self |}.

Definition value (self : t) : result (list npfloat * npfloat) :=
  value_of (ignore_index self) (conf_value (conf_metric self)).

End Collaborator.

End MetricIoU.

(** ** The second definition of [IoU] (lines 94-143) *)

Module IoU.

Record t : Type := { num_classes : nat; hist : matrix }.

(** What the object prints. [PrintSummary] carries the two means that
    the summary line of [value] shows (scaled and rounded there). *)
Inductive event : Type :=
| Skipping (len_gt len_pred : nat)
| PrintText (s : string)
| PrintArray (v : list npfloat)
| PrintSummary (miou mpa : npfloat).

Definition __init__ (num_classes : nat) : t :=
  {| num_classes := num_classes; hist := zeros num_classes num_classes |}.

Definition reset (self : t) : t :=
  {| num_classes := num_classes self;
     hist := zeros (num_classes self) (num_classes self) |}.

(** [fast_hist(a, b, n)] (lines 126-131): [a] holds the true labels and
    [b] the predicted ones. *)
Definition fast_hist (a b : list Z) (n : nat) : result matrix :=
  let k := map (fun x => (0 <=? x) && (x <? Z.of_nat n)) a in
  do ak <- mask_index a k;
  do bk <- mask_index b k;
  do bins <- bincount (zip_with (fun t p => Z.of_nat n * t + p) ak bk) (n ^ 2);
  reshape bins n n.

(** The rank reduction both inputs of [add] go through. *)
Definition reduce (x : tensor) : result tensor :=
  if (dim x =? 4)%nat then max1 x else Ok x.

Definition add (self : t) (pred label : tensor) : result (t * list event) :=
  do pred <- reduce pred;
  do label <- reduce label;
  if negb (length (flatten label) =? length (flatten pred))%nat then
    Ok (self, [Skipping (length (flatten label)) (length (flatten pred))])
  else
    do h <- fast_hist (flatten label) (flatten pred) (num_classes self);
    Ok ({| num_classes := num_classes self; hist := madd (hist self) h |}, []).

Definition per_class_iu (hist : matrix) : list npfloat * list event :=
  let v :=
    vdiv (from1 (diag hist))
         (maximum (from1 (vsub (vadd (sum1 hist) (sum0 hist)) (diag hist))) 1) in
  (v, [PrintText "Defect class IoU as follows:"; PrintArray v]).

Definition per_class_PA (hist : matrix) : list npfloat :=
  vdiv (diag hist) (maximum (sum1 hist) 1).

(** [value] returns the pair [(mIoUs, miou)]; the second component of
    the result is what it printed. *)
Definition value (self : t) : (list npfloat * npfloat) * list event :=
  let '(mIoUs, out) := per_class_iu (hist self) in
  let mPA := per_class_PA (hist self) in
  let miou := nanmean mIoUs in
  ((mIoUs, miou), out ++ [PrintSummary miou (nanmean mPA)]).

(** A run of [add] calls, one per batch [(pred, label)]. *)
Fixpoint add_all (self : t) (batches : list (tensor * tensor)) : result t :=
  match batches with
  | [] => Ok self
  | (pred, label) :: rest =>
      do r <- add self pred label;
      add_all (fst r) rest
  end.

End IoU.

(** ** Vocabulary of the statements *)

(** An array of [r] rows and [c] columns. *)
Definition has_shape (r c : nat) (M : matrix) : Prop :=
  length M = r /\ Forall (fun row => length row = c) M.

(** An array of counts. *)
Definition nonneg (M : matrix) : Prop := Forall (Forall (fun x => 0 <= x)) M.

(** The true label [t] is one of the [n] classes. *)
Definition in_range (n : nat) (t : Z) : bool := (0 <=? t) && (t <? Z.of_nat n).

(** The positions [(true, predicted)] that [fast_hist] keeps. *)
Definition kept (n : nat) (a b : list Z) : list (Z * Z) :=
  filter (fun p => in_range n (fst p)) (combine a b).

(** The bin of a position. *)
Definition bin (n : nat) (p : Z * Z) : Z := Z.of_nat n * fst p + snd p.

Definition pair_eq_dec (p q : Z * Z) : {p = q} + {p <> q}.
Proof. decide equality; apply Z.eq_dec. Defined.

(** Number of positions with true label [i] and predicted label [j]. *)
Definition pair_count (a b : list Z) (i j : nat) : Z :=
  Z.of_nat (count_occ pair_eq_dec (combine a b) (Z.of_nat i, Z.of_nat j)).

(** Every bin lies in [0, n^2). *)
Definition bins_ok (n : nat) (x : list Z) : bool :=
  forallb (fun v => (0 <=? v) && (v <? Z.of_nat (n ^ 2))) x.

(** The [n] by [n] table whose cell [(i, j)] counts the bins equal to
    [i*n + j]. *)
Definition hist_of_bins (n : nat) (x : list Z) : matrix :=
  chunks n n (map (fun i => Z.of_nat (count_occ Z.eq_dec x (Z.of_nat i)))
                  (seq 0 (n ^ 2))).

(** The table one batch [(pred, label)] contributes: what [add] adds to
    [hist], and the zero table when the batch is skipped. *)
Definition update (n : nat) (batch : tensor * tensor) : result matrix :=
  do p <- IoU.reduce (fst batch);
  do l <- IoU.reduce (snd batch);
  if negb (length (flatten l) =? length (flatten p))%nat then Ok (zeros n n)
  else IoU.fast_hist (flatten l) (flatten p) n.

(** The sum of the tables of a list of batches. *)
Fixpoint total (n : nat) (batches : list (tensor * tensor)) : result matrix :=
  match batches with
  | [] => Ok (zeros n n)
  | b :: rest =>
      do h <- update n b;
      do t <- total n rest;
      Ok (madd h t)
  end.

(** A float whose rational value is in lowest terms, as every value
    produced by [fadd] and [fdiv] is. *)
Definition reduced (x : npfloat) : Prop :=
  match x with
  | Fin q => Qred q = q
  | _ => True
  end.

Definition not_nan (x : npfloat) : bool := negb (is_nan x).

(** The components of the tuple [value()] returns, as Python objects. *)
Inductive pyvalue : Type :=
| PyArray (v : list npfloat)
| PyFloat (x : npfloat).

Definition returned (r : list npfloat * npfloat) : list pyvalue :=
  [PyArray (fst r); PyFloat (snd r)].


(** [p] is one of [keys]. *)
Definition among {A : Type} (eq_dec : forall x y : A, {x = y} + {x <> y})
           (keys : list A) (p : A) : bool :=
  if in_dec eq_dec p keys then true else false.

(** A float between 0 and 1. *)
Definition in_unit (x : npfloat) : Prop :=
  match x with
  | Fin q => (0 <= q <= 1)%Q
  | _ => False
  end.

(** A batch [(pred, label)] that [add] counts in full: both rank
    reductions succeed, there are as many true as predicted labels, and the
    predicted labels at the kept positions are among the [n] classes. *)
Definition countable (n : nat) (batch : tensor * tensor) : Prop :=
  exists p l,
    IoU.reduce (fst batch) = Ok p /\ IoU.reduce (snd batch) = Ok l /\
    length (flatten l) = length (flatten p) /\
    Forall (fun q => 0 <= snd q < Z.of_nat n) (kept n (flatten l) (flatten p)).

(** Number of pixels of a batch with true label [i] and predicted label
    [j], and the same over a list of batches. *)
Definition batch_count (batch : tensor * tensor) (i j : nat) : Z :=
  match IoU.reduce (fst batch), IoU.reduce (snd batch) with
  | Ok p, Ok l => pair_count (flatten l) (flatten p) i j
  | _, _ => 0
  end.

Definition batches_count (batches : list (tensor * tensor)) (i j : nat) : Z :=
  vsum (map (fun b => batch_count b i j) batches).

(** ** Sample inputs *)

(** The two 2 by 2 grids of the worked example of the documentation, and
    the confusion matrix they give. *)
Definition grid_pred : tensor := {| shape := [2; 2]%nat; data := [0; 1; 1; 0] |}.
Definition grid_target : tensor := {| shape := [2; 2]%nat; data := [0; 1; 1; 1] |}.
Definition grid_hist : matrix := [[1; 0]; [1; 2]].

(** A batch of one pixel, and a batch of two. *)
Definition pixel (v : Z) : tensor := {| shape := [1; 1; 1]%nat; data := [v] |}.
Definition pixels (u v : Z) : tensor := {| shape := [2; 1; 1]%nat; data := [u; v] |}.

(** Two inputs of rank 3 whose batch counts differ. *)
Definition one_by_two : tensor := {| shape := [1; 2; 1]%nat; data := [0; 1] |}.
Definition two_by_one : tensor := {| shape := [2; 1; 1]%nat; data := [0; 1] |}.

(** Three pixels, against the four of a grid. *)
Definition three_pixels : tensor := {| shape := [1; 1; 3]%nat; data := [0; 1; 1] |}.

(** Scores of two classes for the two pixels of one example. *)
Definition two_scores : tensor :=
  {| shape := [1; 2; 1; 2]%nat; data := [5; 1; 3; 7] |}.

(** A confusion-matrix object that simply holds its array, to run the
    first definition on. *)
Definition held (M : matrix) : MetricIoU.t matrix :=
  {| MetricIoU.conf_metric := M; MetricIoU.ignore_index := None |}.

(** Class 0 seen once and predicted right, class 1 never seen. *)
Definition one_class_seen : matrix := [[1; 0]; [0; 0]].

(** ** The code on small inputs *)

Example fast_hist_grid :
  IoU.fast_hist [0; 1; 1; 1] [0; 1; 1; 0] 2 = Ok [[1; 0]; [1; 2]].
Proof. reflexivity. Qed.

Example fast_hist_wrong_cell : IoU.fast_hist [0] [2] 2 = Ok [[0; 0]; [1; 0]].
Proof. reflexivity. Qed.

Example fast_hist_too_long : IoU.fast_hist [1] [2] 2 = Raise ValueError.
Proof. reflexivity. Qed.

Example nanmean_skips : nanmean [NaN; Fin 1; Fin (1 # 2)] = Fin (3 # 4).
Proof. reflexivity. Qed.

Example max1_scores :
  max1 two_scores = Ok {| shape := [1; 1; 2]%nat; data := [0; 1] |}.
Proof. reflexivity. Qed.

Example add_scores :
  IoU.add (IoU.__init__ 2) two_scores {| shape := [1; 1; 2]%nat; data := [1; 1] |}
  = Ok ({| IoU.num_classes := 2; IoU.hist := [[0; 0]; [1; 1]] |}, []).
Proof. reflexivity. Qed.

Example value_of_grid :
  MetricIoU.value_of None [[1; 0]; [1; 2]]
  = Ok ([Fin (1 # 2); Fin (2 # 3)], Fin (7 # 12)).
Proof. reflexivity. Qed.

Example value_of_ignore0 :
  MetricIoU.value_of (Some [0]) [[5; 1; 2]; [3; 4; 0]; [1; 1; 6]]
  = Ok ([NaN; Fin (4 # 5); Fin (6 # 7)], Fin (29 # 35)).
Proof. reflexivity. Qed.

Example value_grid :
  fst (IoU.value {| IoU.num_classes := 2; IoU.hist := [[1; 0]; [1; 2]] |})
  = ([Fin (2 # 3)], Fin (2 # 3)).
Proof. reflexivity. Qed.

(** ** Facts about the numpy operations *)

Lemma bind_ok {A B : Type} (r : result A) (f : A -> result B) (b : B) :
  bind r f = Ok b -> exists a, r = Ok a /\ f a = Ok b.
Proof. destruct r as [a|e]; simpl; intros H; [eauto | discriminate]. Qed.

Lemma mask_index_self (f : Z -> bool) (a : list Z) :
  mask_index a (map f a) = Ok (filter f a).
Proof.
  unfold mask_index. rewrite length_map, Nat.eqb_refl. f_equal.
  induction a as [|x a IH]; simpl; [reflexivity|].
  destruct (f x); simpl; now rewrite IH.
Qed.

Lemma mask_index_other (f : Z -> bool) (a b : list Z) :
  length b = length a ->
  mask_index b (map f a)
  = Ok (map snd (filter (fun p => f (fst p)) (combine a b))).
Proof.
  intros Hlen. unfold mask_index. rewrite length_map, Hlen, Nat.eqb_refl. f_equal.
  revert b Hlen. induction a as [|x a IH]; intros [|y b] Hlen; simpl in *;
    try discriminate; [reflexivity|].
  destruct (f x); simpl; rewrite IH by lia; reflexivity.
Qed.


Lemma filter_fst_combine (f : Z -> bool) (a b : list Z) :
  length b = length a ->
  filter f a = map fst (filter (fun p => f (fst p)) (combine a b)).
Proof.
  revert b. induction a as [|x a IH]; intros [|y b] Hlen; simpl in *;
    try discriminate; [reflexivity|].
  destruct (f x); simpl; rewrite (IH b) by lia; reflexivity.
Qed.

Lemma zip_with_fst_snd {A B C : Type} (g : A -> B -> C) (K : list (A * B)) :
  zip_with g (map fst K) (map snd K) = map (fun p => g (fst p) (snd p)) K.
Proof.
  unfold zip_with. induction K as [|[x y] K IH]; simpl; [reflexivity|].
  now rewrite IH.
Qed.

(** The bins that [fast_hist] counts are those of the kept positions. *)
Lemma fast_hist_kept (a b : list Z) (n : nat) :
  length b = length a ->
  IoU.fast_hist a b n
  = bind (bincount (map (bin n) (kept n a b)) (n ^ 2)) (fun bins => reshape bins n n).
Proof.
  intros Hlen. unfold IoU.fast_hist.
  rewrite mask_index_self, (mask_index_other _ a b Hlen). simpl.
  rewrite (filter_fst_combine _ a b Hlen), zip_with_fst_snd. reflexivity.
Qed.

Lemma amax1_bounds (x : list Z) (m : Z) :
  0 <= m -> Forall (fun v => v < m) x -> 0 <= amax1 x <= m.
Proof.
  intros Hm H. unfold amax1. induction H as [|v x Hv _ IH]; simpl; lia.
Qed.

Lemma amax1_reached (x : list Z) (v : Z) : In v x -> v < amax1 x.
Proof.
  unfold amax1. induction x as [|w x IH]; simpl; [tauto|].
  intros [->|Hin]; [lia | specialize (IH Hin); lia].
Qed.

Lemma no_negative (x : list Z) :
  Forall (fun v => 0 <= v) x -> existsb (fun v => v <? 0) x = false.
Proof.
  induction 1 as [|v x Hv _ IH]; simpl; [reflexivity|].
  rewrite IH. destruct (Z.ltb_spec v 0); [lia | reflexivity].
Qed.

Lemma bincount_in_range (x : list Z) (m : nat) :
  Forall (fun v => 0 <= v < Z.of_nat m) x ->
  bincount x m
  = Ok (map (fun i => Z.of_nat (count_occ Z.eq_dec x (Z.of_nat i))) (seq 0 m)).
Proof.
  intros H. unfold bincount.
  rewrite no_negative by (eapply Forall_impl; [|exact H]; simpl; intros; lia).
  assert (Hb : 0 <= amax1 x <= Z.of_nat m).
  { apply amax1_bounds; [lia|]. eapply Forall_impl; [|exact H]. simpl. intros; lia. }
  replace (Nat.max m (Z.to_nat (amax1 x))) with m by lia. reflexivity.
Qed.

Lemma bincount_length (x : list Z) (m : nat) (bins : vector) :
  bincount x m = Ok bins -> length bins = Nat.max m (Z.to_nat (amax1 x)).
Proof.
  unfold bincount. destruct (existsb _ x); [discriminate|].
  intros H. injection H as <-. now rewrite length_map, length_seq.
Qed.

Lemma chunks_length {A : Type} (r c : nat) (v : list A) : length (chunks r c v) = r.
Proof. revert v. induction r as [|r IH]; intros v; simpl; [|rewrite IH]; reflexivity. Qed.

Lemma chunks_shape (r c : nat) (v : vector) :
  length v = (r * c)%nat -> has_shape r c (chunks r c v).
Proof.
  intros Hlen. split; [apply chunks_length|].
  revert v Hlen. induction r as [|r IH]; intros v Hlen; simpl; constructor.
  - rewrite length_firstn. lia.
  - apply IH. rewrite length_skipn. lia.
Qed.

Lemma entry_chunks (r c : nat) (v : vector) (i j : nat) :
  (i < r)%nat -> (j < c)%nat ->
  entry (chunks r c v) i j = nth (i * c + j) v 0.
Proof.
  unfold entry. revert v i. induction r as [|r IH]; intros v i Hi Hj; [lia|].
  destruct i as [|i]; simpl.
  - rewrite nth_firstn. destruct (Nat.ltb_spec j c); [reflexivity | lia].
  - rewrite IH by lia. rewrite nth_skipn. f_equal. lia.
Qed.

Lemma nth_map_seq {A : Type} (f : nat -> A) (m k : nat) (d : A) :
  (k < m)%nat -> nth k (map f (seq 0 m)) d = f k.
Proof.
  intros Hk. rewrite (nth_indep _ d (f O)) by now rewrite length_map, length_seq.
  rewrite map_nth, seq_nth by exact Hk. reflexivity.
Qed.

(** ** Facts about [fast_hist] *)

Lemma in_range_spec (n : nat) (t : Z) :
  in_range n t = true <-> 0 <= t < Z.of_nat n.
Proof. unfold in_range. rewrite andb_true_iff, Z.leb_le, Z.ltb_lt. tauto. Qed.

Lemma kept_in_range (n : nat) (a b : list Z) (p : Z * Z) :
  In p (kept n a b) -> 0 <= fst p < Z.of_nat n.
Proof. unfold kept. rewrite filter_In. intros [_ H]. now apply in_range_spec. Qed.

Lemma bin_injective (n : nat) (t p i j : Z) :
  0 <= p < Z.of_nat n -> 0 <= j < Z.of_nat n ->
  Z.of_nat n * t + p = Z.of_nat n * i + j -> t = i /\ p = j.
Proof.
  intros Hp Hj H.
  assert (Ht : t = i).
  { destruct (Z.lt_trichotomy t i) as [Hlt|[Heq|Hgt]]; [|exact Heq|].
    - assert (Z.of_nat n * 1 <= Z.of_nat n * (i - t)) by (apply Z.mul_le_mono_nonneg_l; lia).
      lia.
    - assert (Z.of_nat n * 1 <= Z.of_nat n * (t - i)) by (apply Z.mul_le_mono_nonneg_l; lia).
      lia. }
  subst t. split; [reflexivity | lia].
Qed.

Lemma count_bins (n : nat) (K : list (Z * Z)) (i j : Z) :
  Forall (fun p => 0 <= snd p < Z.of_nat n) K ->
  0 <= j < Z.of_nat n ->
  count_occ Z.eq_dec (map (bin n) K) (bin n (i, j)) = count_occ pair_eq_dec K (i, j).
Proof.
  intros HK Hj. induction HK as [|[t p] K Hp _ IH]; [reflexivity|].
  cbn [map count_occ]. simpl in Hp.
  destruct (Z.eq_dec (bin n (t, p)) (bin n (i, j))) as [E|E];
    destruct (pair_eq_dec (t, p) (i, j)) as [E'|E'].
  - now rewrite IH.
  - exfalso. apply E'. unfold bin in E. simpl in E.
    destruct (bin_injective n t p i j Hp Hj E). congruence.
  - exfalso. apply E. now rewrite E'.
  - exact IH.
Qed.

Lemma count_filter (f : Z * Z -> bool) (L : list (Z * Z)) (q : Z * Z) :
  f q = true ->
  count_occ pair_eq_dec (filter f L) q = count_occ pair_eq_dec L q.
Proof.
  intros Hq. induction L as [|p L IH]; simpl; [reflexivity|].
  destruct (pair_eq_dec p q) as [->|Hne].
  - rewrite Hq. simpl. destruct (pair_eq_dec q q); [now rewrite IH | contradiction].
  - destruct (f p); simpl; [|exact IH].
    destruct (pair_eq_dec p q); [contradiction | exact IH].
Qed.

(** The bins of in-range positions lie in [0, n^2). *)
Lemma bins_in_range (n : nat) (a b : list Z) :
  Forall (fun p => 0 <= snd p < Z.of_nat n) (kept n a b) ->
  Forall (fun v => 0 <= v < Z.of_nat (n ^ 2)) (map (bin n) (kept n a b)).
Proof.
  intros H. apply Forall_forall. intros v Hv.
  apply in_map_iff in Hv. destruct Hv as [p [<- Hp]].
  pose proof (kept_in_range _ _ _ _ Hp) as Ht.
  rewrite Forall_forall in H. specialize (H p Hp).
  unfold bin. simpl Nat.pow.
  replace (Z.of_nat (n * (n * 1))) with (Z.of_nat n * Z.of_nat n) by lia. nia.
Qed.

(** With every predicted label at a kept position among the [n] classes,
    [fast_hist] returns the [n] by [n] table of pair counts. *)
Lemma fast_hist_counts (a b : list Z) (n : nat) :
  length b = length a ->
  Forall (fun p => 0 <= snd p < Z.of_nat n) (kept n a b) ->
  exists bins h,
    bincount (map (bin n) (kept n a b)) (n ^ 2) = Ok bins /\
    reshape bins n n = Ok h /\
    IoU.fast_hist a b n = Ok h /\
    has_shape n n h /\
    forall i j, (i < n)%nat -> (j < n)%nat -> entry h i j = pair_count a b i j.
Proof.
  intros Hlen Hp.
  pose proof (bincount_in_range _ _ (bins_in_range n a b Hp)) as Hbins.
  set (bins := map _ (seq 0 (n ^ 2))) in Hbins.
  assert (Hl : length bins = (n * n)%nat).
  { unfold bins. rewrite length_map, length_seq. simpl. lia. }
  assert (Hr : reshape bins n n = Ok (chunks n n bins)).
  { unfold reshape. rewrite Hl, Nat.eqb_refl. reflexivity. }
  exists bins, (chunks n n bins). repeat split.
  - exact Hbins.
  - exact Hr.
  - rewrite (fast_hist_kept a b n Hlen), Hbins. exact Hr.
  - apply chunks_length.
  - apply chunks_shape, Hl.
  - intros i j Hi Hj. rewrite entry_chunks by assumption.
    unfold bins. rewrite nth_map_seq by (simpl; nia).
    unfold pair_count. f_equal.
    replace (Z.of_nat (i * n + j)) with (bin n (Z.of_nat i, Z.of_nat j))
      by (unfold bin; simpl; lia).
    rewrite count_bins by (assumption || lia).
    apply count_filter. simpl. apply in_range_spec. lia.
Qed.

(** ** Facts about arrays *)

Lemma nth_zip_with {A B C : Type} (f : A -> B -> C) (xs : list A) (ys : list B)
      (i : nat) (dx : A) (dy : B) (d : C) :
  (i < length xs)%nat -> (i < length ys)%nat ->
  nth i (zip_with f xs ys) d = f (nth i xs dx) (nth i ys dy).
Proof.
  unfold zip_with. revert ys i.
  induction xs as [|x xs IH]; intros [|y ys] [|i] Hx Hy; simpl in *; try lia;
    [reflexivity | apply IH; lia].
Qed.

Lemma length_zip_with {A B C : Type} (f : A -> B -> C) (xs : list A) (ys : list B) :
  length (zip_with f xs ys) = Nat.min (length xs) (length ys).
Proof. unfold zip_with. now rewrite length_map, length_combine. Qed.

Lemma has_shape_row (r c : nat) (M : matrix) (i : nat) :
  has_shape r c M -> (i < r)%nat -> length (nth i M []) = c.
Proof.
  intros [Hr Hc] Hi. rewrite Forall_forall in Hc. apply Hc, nth_In. lia.
Qed.

Lemma entry_madd (r c : nat) (M H : matrix) (i j : nat) :
  has_shape r c M -> has_shape r c H -> (i < r)%nat -> (j < c)%nat ->
  entry (madd M H) i j = entry M i j + entry H i j.
Proof.
  intros HM HH Hi Hj.
  assert (E : nth i (madd M H) [] = vadd (nth i M []) (nth i H [])).
  { apply nth_zip_with; destruct HM, HH; lia. }
  unfold entry. rewrite E.
  apply nth_zip_with; rewrite (has_shape_row r c) by assumption; lia.
Qed.

Lemma has_shape_madd (r c : nat) (M H : matrix) :
  has_shape r c M -> has_shape r c H -> has_shape r c (madd M H).
Proof.
  intros [HMr HMc] [HHr HHc]. split.
  - unfold madd. rewrite length_zip_with. lia.
  - unfold madd, zip_with. apply Forall_forall. intros row Hrow.
    apply in_map_iff in Hrow. destruct Hrow as [[u v] [<- Hin]]. simpl.
    rewrite Forall_forall in HMc, HHc.
    unfold vadd. rewrite length_zip_with.
    rewrite (HMc u) by (eapply in_combine_l; eauto).
    rewrite (HHc v) by (eapply in_combine_r; eauto). lia.
Qed.

Lemma has_shape_zeros (r c : nat) : has_shape r c (zeros r c).
Proof.
  unfold zeros. split; [apply repeat_length|].
  apply Forall_forall. intros row Hrow. apply repeat_spec in Hrow. subst row.
  apply repeat_length.
Qed.

Lemma entry_zeros (r c i j : nat) : entry (zeros r c) i j = 0.
Proof.
  unfold entry, zeros.
  destruct (Nat.ltb_spec i r) as [Hi|Hi].
  - rewrite nth_repeat_lt by exact Hi.
    destruct (Nat.ltb_spec j c) as [Hj|Hj].
    + now apply nth_repeat_lt.
    + apply nth_overflow. now rewrite repeat_length.
  - replace (nth i (repeat (repeat 0 c) r) []) with (@nil Z)
      by (symmetry; apply nth_overflow; rewrite repeat_length; lia).
    now destruct j.
Qed.

Lemma kept_of_kept (n : nat) (a b : list Z) :
  kept n (map fst (kept n a b)) (map snd (kept n a b)) = kept n a b.
Proof.
  unfold kept. set (f := fun p : Z * Z => in_range n (fst p)).
  induction (combine a b) as [|[t p] L IH]; simpl; [reflexivity|].
  destruct (f (t, p)) eqn:E; simpl; [|exact IH].
  rewrite E. now rewrite IH.
Qed.

(** Positions whose true label is out of range can be dropped from
    the input of [fast_hist]. *)
Lemma fast_hist_ignores_out_of_range (a b : list Z) (n : nat) :
  length b = length a ->
  IoU.fast_hist a b n
  = IoU.fast_hist (map fst (kept n a b)) (map snd (kept n a b)) n.
Proof.
  intros Hlen. rewrite (fast_hist_kept a b n Hlen).
  rewrite fast_hist_kept by now rewrite !length_map.
  now rewrite kept_of_kept.
Qed.

(** ** The confusion-matrix update *)

Lemma add_unfold (self : IoU.t) (pred label p l : tensor) :
  IoU.reduce pred = Ok p -> IoU.reduce label = Ok l ->
  length (flatten l) = length (flatten p) ->
  IoU.add self pred label
  = bind (IoU.fast_hist (flatten l) (flatten p) (IoU.num_classes self))
         (fun h => Ok ({| IoU.num_classes := IoU.num_classes self;
                          IoU.hist := madd (IoU.hist self) h |}, [])).
Proof.
  intros Hp Hl Hlen. unfold IoU.add. rewrite Hp, Hl. simpl.
  rewrite Hlen, Nat.eqb_refl. reflexivity.
Qed.

(** C1, for predicted indices in range.  When the flattened inputs of [add] have equal length
    and every predicted index at a position whose true index lies in
    [0, N) lies in [0, N) too, the update is
    [bincount(N*t + p, minlength=N*N)] over those positions, reshaped to
    N by N and added to the previous matrix: entry [(i, j)] grows by the
    number of positions with true index [i] and predicted index [j], and
    positions with an out-of-range true index can be dropped from the
    input without changing the update. *)
Theorem add_counts_in_range_pairs (self : IoU.t) (pred label p l : tensor) :
  has_shape (IoU.num_classes self) (IoU.num_classes self) (IoU.hist self) ->
  IoU.reduce pred = Ok p ->
  IoU.reduce label = Ok l ->
  length (flatten l) = length (flatten p) ->
  Forall (fun q => 0 <= snd q < Z.of_nat (IoU.num_classes self))
         (kept (IoU.num_classes self) (flatten l) (flatten p)) ->
  exists bins h,
    bincount (map (bin (IoU.num_classes self))
                  (kept (IoU.num_classes self) (flatten l) (flatten p)))
             (IoU.num_classes self ^ 2) = Ok bins /\
    reshape bins (IoU.num_classes self) (IoU.num_classes self) = Ok h /\
    IoU.add self pred label
    = Ok ({| IoU.num_classes := IoU.num_classes self;
             IoU.hist := madd (IoU.hist self) h |}, []) /\
    (forall i j, (i < IoU.num_classes self)%nat -> (j < IoU.num_classes self)%nat ->
       entry (madd (IoU.hist self) h) i j
       = entry (IoU.hist self) i j + pair_count (flatten l) (flatten p) i j) /\
    IoU.fast_hist (map fst (kept (IoU.num_classes self) (flatten l) (flatten p)))
                  (map snd (kept (IoU.num_classes self) (flatten l) (flatten p)))
                  (IoU.num_classes self) = Ok h.
Proof.
  intros Hshape Hp Hl Hlen Hrange.
  destruct (fast_hist_counts (flatten l) (flatten p) (IoU.num_classes self))
    as [bins [h [Hbins [Hre [Hfh [Hh Hentry]]]]]]; [now symmetry | exact Hrange |].
  exists bins, h. repeat split; try assumption.
  - rewrite (add_unfold self pred label p l Hp Hl Hlen), Hfh. reflexivity.
  - intros i j Hi Hj.
    rewrite (entry_madd _ _ _ _ i j Hshape Hh Hi Hj), Hentry by assumption.
    reflexivity.
  - rewrite <- fast_hist_ignores_out_of_range by now symmetry. exact Hfh.
Qed.

Lemma add_counts_in_range_pairs_witness :
  has_shape 2 2 (IoU.hist (IoU.__init__ 2)) /\
  IoU.reduce grid_pred = Ok grid_pred /\
  IoU.reduce grid_target = Ok grid_target /\
  length (flatten grid_target) = length (flatten grid_pred) /\
  exists bins h,
    bincount (map (bin 2) (kept 2 (flatten grid_target) (flatten grid_pred))) (2 ^ 2)
    = Ok bins /\
    reshape bins 2 2 = Ok h /\
    IoU.add (IoU.__init__ 2) grid_pred grid_target
    = Ok ({| IoU.num_classes := 2; IoU.hist := madd (zeros 2 2) h |}, []) /\
    (forall i j, (i < 2)%nat -> (j < 2)%nat ->
       entry (madd (zeros 2 2) h) i j
       = entry (zeros 2 2) i j + pair_count (flatten grid_target) (flatten grid_pred) i j) /\
    IoU.fast_hist (map fst (kept 2 (flatten grid_target) (flatten grid_pred)))
                  (map snd (kept 2 (flatten grid_target) (flatten grid_pred))) 2
    = Ok h.
Proof.
  split; [apply has_shape_zeros|].
  split; [reflexivity|]. split; [reflexivity|]. split; [reflexivity|].
  apply (add_counts_in_range_pairs (IoU.__init__ 2) grid_pred grid_target
                                   grid_pred grid_target).
  - apply has_shape_zeros.
  - reflexivity.
  - reflexivity.
  - reflexivity.
  - simpl. repeat constructor; simpl; lia.
Defined.

(** C1 does not hold when a predicted index is out of range: with two
    classes, a pixel of true class 0 predicted as 2 is counted in cell
    [(1, 0)], which no position of the input has, and nowhere in row 0. *)
Lemma add_miscounts_out_of_range_prediction :
  length (flatten (pixel 0)) = length (flatten (pixel 2)) /\
  in_range 2 0 = true /\
  IoU.add (IoU.__init__ 2) (pixel 2) (pixel 0)
  = Ok ({| IoU.num_classes := 2; IoU.hist := [[0; 0]; [1; 0]] |}, []) /\
  pair_count (flatten (pixel 0)) (flatten (pixel 2)) 1 0 = 0 /\
  entry [[0; 0]; [1; 0]] 1 0
  <> entry (IoU.hist (IoU.__init__ 2)) 1 0
     + pair_count (flatten (pixel 0)) (flatten (pixel 2)) 1 0.
Proof. repeat split; try reflexivity. vm_compute. discriminate. Qed.

(** ** The worked example *)

(** C3, with the values the code computes.  With two classes, a single
    [add([[0,1],[1,0]], [[0,1],[1,1]])] gives the confusion matrix
    [[1,0],[1,2]] (the fourth pixel has true class 1 and is predicted as 0),
    hence true_positive = [1,2], false_positive = [1,0],
    false_negative = [0,1]; the quotient tp/(tp+fp+fn) is [1/2, 2/3] with
    mean 7/12, and [value()] of the accumulator returns [2/3] (class 0
    dropped) with mean 2/3. *)
Theorem grid_example :
  IoU.add (IoU.__init__ 2) grid_pred grid_target
  = Ok ({| IoU.num_classes := 2; IoU.hist := [[1; 0]; [1; 2]] |}, []) /\
  MetricIoU.true_positive [[1; 0]; [1; 2]] = [1; 2] /\
  MetricIoU.false_positive [[1; 0]; [1; 2]] = [1; 0] /\
  MetricIoU.false_negative [[1; 0]; [1; 2]] = [0; 1] /\
  MetricIoU.value_of None [[1; 0]; [1; 2]]
  = Ok ([Fin (1 # 2); Fin (2 # 3)], Fin (7 # 12)) /\
  fst (IoU.value {| IoU.num_classes := 2; IoU.hist := [[1; 0]; [1; 2]] |})
  = ([Fin (2 # 3)], Fin (2 # 3)).
Proof. repeat split. Qed.

(** C3 does not hold as written: the matrix is not [[1,0],[0,3]], the false
    positives and negatives are not zero, and neither derivation of the
    IoU gives [1.0, 1.0] with mean 1.0. *)
Lemma grid_example_is_not_perfect :
  (forall out, IoU.add (IoU.__init__ 2) grid_pred grid_target
               <> Ok ({| IoU.num_classes := 2; IoU.hist := [[1; 0]; [0; 3]] |}, out)) /\
  (exists s, IoU.add (IoU.__init__ 2) grid_pred grid_target = Ok (s, []) /\
     MetricIoU.true_positive (IoU.hist s) <> [1; 3] /\
     MetricIoU.false_positive (IoU.hist s) <> [0; 0] /\
     MetricIoU.false_negative (IoU.hist s) <> [0; 0] /\
     MetricIoU.value_of None (IoU.hist s) <> Ok ([Fin 1; Fin 1], Fin 1) /\
     fst (IoU.value s) <> ([Fin 1; Fin 1], Fin 1)).
Proof.
  split.
  - intros out H. vm_compute in H. discriminate.
  - eexists. split; [reflexivity|].
    repeat split; intros H; vm_compute in H; discriminate.
Qed.

(** The first definition does not accept the grids at all: they have rank 2. *)
Lemma grid_example_first_definition (C : Type)
      (conf_add : C -> list Z -> list Z -> result C) (self : MetricIoU.t C) :
  MetricIoU.add C conf_add self grid_pred grid_target
  = Raise (AssertionError MetricIoU.msg_predicted).
Proof. reflexivity. Qed.

(** ** Inputs of unequal length *)

(** C6.  When the flattened, rank-reduced inputs differ in length, [add]
    prints the diagnostic, raises nothing and returns the accumulator as it
    was, so the calls that follow accumulate as if the call had not been
    made. *)
Theorem add_skips_length_mismatch (self : IoU.t) (pred label p l : tensor) :
  IoU.reduce pred = Ok p ->
  IoU.reduce label = Ok l ->
  length (flatten l) <> length (flatten p) ->
  IoU.add self pred label
  = Ok (self, [IoU.Skipping (length (flatten l)) (length (flatten p))]) /\
  forall rest, IoU.add_all self ((pred, label) :: rest) = IoU.add_all self rest.
Proof.
  intros Hp Hl Hlen.
  assert (E : IoU.add self pred label
              = Ok (self, [IoU.Skipping (length (flatten l)) (length (flatten p))])).
  { unfold IoU.add. rewrite Hp, Hl. simpl.
    destruct (Nat.eqb_spec (length (flatten l)) (length (flatten p)));
      [contradiction | reflexivity]. }
  split; [exact E|]. intros rest. simpl. rewrite E. reflexivity.
Qed.

Lemma add_skips_length_mismatch_witness :
  IoU.reduce three_pixels = Ok three_pixels /\
  IoU.reduce grid_target = Ok grid_target /\
  length (flatten grid_target) <> length (flatten three_pixels) /\
  IoU.add (IoU.__init__ 2) three_pixels grid_target
  = Ok (IoU.__init__ 2, [IoU.Skipping 4 3]) /\
  forall rest,
    IoU.add_all (IoU.__init__ 2) ((three_pixels, grid_target) :: rest)
    = IoU.add_all (IoU.__init__ 2) rest.
Proof.
  split; [reflexivity|]. split; [reflexivity|].
  split; [simpl; lia|].
  apply (add_skips_length_mismatch (IoU.__init__ 2) three_pixels grid_target
                                   three_pixels grid_target).
  - reflexivity.
  - reflexivity.
  - simpl. lia.
Defined.

(** ** Unchecked predicted labels *)

Lemma bins_ok_spec (n : nat) (x : list Z) :
  bins_ok n x = true <-> Forall (fun v => 0 <= v < Z.of_nat (n ^ 2)) x.
Proof.
  unfold bins_ok. rewrite forallb_forall, Forall_forall.
  split; intros H v Hv; specialize (H v Hv).
  - apply andb_true_iff in H. rewrite Z.leb_le, Z.ltb_lt in H. exact H.
  - apply andb_true_iff. rewrite Z.leb_le, Z.ltb_lt. exact H.
Qed.

Lemma bins_not_ok (n : nat) (x : list Z) :
  bins_ok n x = false -> exists v, In v x /\ (v < 0 \/ Z.of_nat (n ^ 2) <= v).
Proof.
  unfold bins_ok. induction x as [|w x IH]; simpl; [discriminate|].
  intros H. apply andb_false_iff in H. destruct H as [H|H].
  - exists w. split; [now left|].
    apply andb_false_iff in H. rewrite Z.leb_gt, Z.ltb_ge in H. exact H.
  - destruct (IH H) as [v [Hv Hb]]. exists v. split; [now right | exact Hb].
Qed.

Lemma has_negative (x : list Z) (v : Z) :
  In v x -> v < 0 -> existsb (fun w => w <? 0) x = true.
Proof.
  intros Hin Hv. apply existsb_exists. exists v. split; [exact Hin|].
  now apply Z.ltb_lt.
Qed.

Lemma bincount_reshape_raises (n : nat) (x : list Z) :
  bins_ok n x = false ->
  bind (bincount x (n ^ 2)) (fun bins => reshape bins n n) = Raise ValueError.
Proof.
  intros H. destruct (bins_not_ok n x H) as [v [Hin Hv]].
  destruct (bincount x (n ^ 2)) as [bins|e] eqn:E.
  - simpl. pose proof (bincount_length _ _ _ E) as Hl.
    unfold bincount in E. destruct (existsb _ x) eqn:Hneg; [discriminate|].
    assert (Hv' : Z.of_nat (n ^ 2) <= v).
    { destruct Hv as [Hv|Hv]; [|exact Hv].
      rewrite (has_negative x v Hin Hv) in Hneg. discriminate. }
    pose proof (amax1_reached x v Hin) as Hmax.
    unfold reshape. destruct (Nat.eqb_spec (length bins) (n * n)) as [Heq|Hne];
      [|reflexivity].
    exfalso. simpl Nat.pow in *. lia.
  - unfold bincount in E. destruct (existsb _ x); [|discriminate].
    injection E as <-. reflexivity.
Qed.

(** [fast_hist] on inputs of equal length: the table of the bins when
    all of them lie in [0, n^2), a [ValueError] from [bincount] or from
    [reshape] otherwise. *)
Lemma fast_hist_eq (a b : list Z) (n : nat) :
  length b = length a ->
  IoU.fast_hist a b n
  = if bins_ok n (map (bin n) (kept n a b))
    then Ok (hist_of_bins n (map (bin n) (kept n a b)))
    else Raise ValueError.
Proof.
  intros Hlen. rewrite (fast_hist_kept a b n Hlen).
  destruct (bins_ok n _) eqn:E.
  - apply bins_ok_spec in E. rewrite (bincount_in_range _ _ E). cbn [bind].
    unfold reshape. rewrite length_map, length_seq.
    replace (n ^ 2 =? n * n)%nat with true
      by (symmetry; apply Nat.eqb_eq; simpl; lia).
    reflexivity.
  - now apply bincount_reshape_raises.
Qed.

(** C10.  [fast_hist] selects the positions by the true labels alone; a
    kept position whose bin reaches [N^2] makes the call fail, which
    happens for a predicted index [>= N] in the last row (for instance one
    pixel of true class 1 predicted as 2 with two classes), while inputs
    whose predicted indices at the kept positions lie in [0, N) always
    give a matrix.  In an earlier row such a predicted index does not fail:
    it is counted in a later row. *)
Theorem fast_hist_does_not_check_predictions :
  (forall (n : nat) (a b : list Z),
      length b = length a ->
      map fst (kept n a b) = filter (in_range n) a) /\
  (forall (n : nat) (a b : list Z) (t p : Z),
      length b = length a ->
      In (t, p) (combine a b) ->
      0 <= t < Z.of_nat n ->
      Z.of_nat (n ^ 2) <= Z.of_nat n * t + p ->
      IoU.fast_hist a b n = Raise ValueError) /\
  (forall (n : nat) (a b : list Z),
      length b = length a ->
      Forall (fun q => 0 <= snd q < Z.of_nat n) (kept n a b) ->
      exists h, IoU.fast_hist a b n = Ok h /\ has_shape n n h) /\
  (in_range 2 1 = true /\ 2 <= 2 /\
   IoU.fast_hist [1] [2] 2 = Raise ValueError /\
   IoU.add (IoU.__init__ 2) (pixel 2) (pixel 1) = Raise ValueError /\
   IoU.fast_hist [0] [2] 2 = Ok [[0; 0]; [1; 0]]).
Proof.
  split; [|split; [|split]].
  - intros n a b Hlen. unfold kept. symmetry. now apply filter_fst_combine.
  - intros n a b t p Hlen Hin Ht Hbin.
    rewrite (fast_hist_eq a b n Hlen).
    destruct (bins_ok n _) eqn:E; [|reflexivity].
    exfalso. apply bins_ok_spec in E. rewrite Forall_forall in E.
    assert (Hk : In (bin n (t, p)) (map (bin n) (kept n a b))).
    { apply in_map. unfold kept. apply filter_In. split; [exact Hin|].
      now apply in_range_spec. }
    specialize (E _ Hk). unfold bin in E. cbn [fst snd] in E. lia.
  - intros n a b Hlen Hr.
    destruct (fast_hist_counts a b n Hlen Hr) as [bins [h [_ [_ [Hfh [Hh _]]]]]].
    exists h. split; assumption.
  - repeat split. lia.
Qed.

Lemma fast_hist_does_not_check_predictions_witness :
  (length [2] = length [1] /\ In (1, 2) (combine [1] [2]) /\ 0 <= 1 < Z.of_nat 2 /\
   Z.of_nat (2 ^ 2) <= Z.of_nat 2 * 1 + 2 /\
   IoU.fast_hist [1] [2] 2 = Raise ValueError) /\
  (length [0] = length [1] /\
   Forall (fun q => 0 <= snd q < Z.of_nat 2) (kept 2 [1] [0]) /\
   exists h, IoU.fast_hist [1] [0] 2 = Ok h /\ has_shape 2 2 h) /\
  map fst (kept 2 [1; 5] [2; 0]) = filter (in_range 2) [1; 5].
Proof.
  destruct fast_hist_does_not_check_predictions as [Hsel [Hfail [Hok _]]].
  split; [|split].
  - assert (H1 : length [2] = length [1]) by reflexivity.
    assert (H2 : In (1, 2) (combine [1] [2])) by (simpl; now left).
    assert (H3 : 0 <= 1 < Z.of_nat 2) by (simpl; lia).
    assert (H4 : Z.of_nat (2 ^ 2) <= Z.of_nat 2 * 1 + 2) by (simpl; lia).
    exact (conj H1 (conj H2 (conj H3 (conj H4
             (Hfail 2%nat [1] [2] 1 2 H1 H2 H3 H4))))).
  - assert (H1 : length [0] = length [1]) by reflexivity.
    assert (H2 : Forall (fun q => 0 <= snd q < Z.of_nat 2) (kept 2 [1] [0]))
      by (simpl; repeat constructor; simpl; lia).
    split; [exact H1|]. split; [exact H2|].
    exact (Hok 2%nat [1] [0] H1 H2).
  - apply (Hsel 2%nat [1; 5] [2; 0]). reflexivity.
Defined.

(** ** Checks on the shapes *)

Lemma reduce_not_4 (x : tensor) : dim x <> 4%nat -> IoU.reduce x = Ok x.
Proof.
  intros H. unfold IoU.reduce.
  destruct (Nat.eqb_spec (dim x) 4); [contradiction | reflexivity].
Qed.

(** C5, for each of the two definitions.  The first definition of [add] asserts the
    shapes before anything else: when the batch counts differ or a rank is
    outside {3, 4} it raises (an [AssertionError], or the [IndexError] of
    [size(0)] on a tensor without dimensions) whatever the confusion-matrix
    object is, so that object is not touched.  The second definition, the
    one bound to the name [IoU] in the end, has no such check: inputs of any
    rank other than 4 are taken as they are and the call depends on their
    flattened data only. *)
Theorem add_shape_checks :
  (forall predicted target : tensor,
      size predicted 0 <> size target 0 \/
      ~ (dim predicted = 3 \/ dim predicted = 4)%nat \/
      ~ (dim target = 3 \/ dim target = 4)%nat ->
      exists e,
        (forall (C : Type) (conf_add : C -> list Z -> list Z -> result C)
                (self : MetricIoU.t C),
            MetricIoU.add C conf_add self predicted target = Raise e) /\
        ((exists msg, e = AssertionError msg) \/
         (e = IndexError /\ (dim predicted = 0 \/ dim target = 0)%nat))) /\
  (forall (self : IoU.t) (pred label pred' label' : tensor),
      dim pred <> 4%nat -> dim label <> 4%nat ->
      dim pred' <> 4%nat -> dim label' <> 4%nat ->
      flatten pred = flatten pred' -> flatten label = flatten label' ->
      IoU.add self pred label = IoU.add self pred' label').
Proof.
  split.
  - intros predicted target H. unfold MetricIoU.add.
    destruct (size predicted 0) as [np|e] eqn:Ep.
    + destruct (size target 0) as [nt|e] eqn:Et.
      * cbn [bind].
        destruct (Nat.eqb_spec np nt) as [Heq|Hne]; cbn [negb].
        -- destruct H as [H|H]; [congruence|].
           destruct ((dim predicted =? 3) || (dim predicted =? 4))%nat eqn:Dp;
             cbn [negb].
           ++ apply orb_true_iff in Dp. rewrite !Nat.eqb_eq in Dp.
              destruct H as [H|H]; [contradiction|].
              destruct ((dim target =? 3) || (dim target =? 4))%nat eqn:Dt;
                cbn [negb].
              ** apply orb_true_iff in Dt. rewrite !Nat.eqb_eq in Dt. contradiction.
              ** eexists. split; [reflexivity | left; eauto].
           ++ eexists. split; [reflexivity | left; eauto].
        -- eexists. split; [reflexivity | left; eauto].
      * cbn [bind]. exists e. split; [reflexivity|]. right.
        unfold size in Et. destruct (shape target) as [|n s] eqn:Es; simpl in Et.
        -- injection Et as <-. split; [reflexivity|]. right. unfold dim.
           now rewrite Es.
        -- discriminate.
    + cbn [bind]. exists e. split; [reflexivity|]. right.
      unfold size in Ep. destruct (shape predicted) as [|n s] eqn:Es; simpl in Ep.
      * injection Ep as <-. split; [reflexivity|]. left. unfold dim. now rewrite Es.
      * discriminate.
  - intros self pred label pred' label' H1 H2 H3 H4 Hp Hl.
    unfold IoU.add. rewrite !reduce_not_4 by assumption. cbn [bind].
    rewrite Hp, Hl. reflexivity.
Qed.

Lemma add_shape_checks_witness :
  (size one_by_two 0 <> size two_by_one 0 /\
   exists e,
     (forall (C : Type) (conf_add : C -> list Z -> list Z -> result C)
             (self : MetricIoU.t C),
         MetricIoU.add C conf_add self one_by_two two_by_one = Raise e) /\
     ((exists msg, e = AssertionError msg) \/
      (e = IndexError /\ (dim one_by_two = 0 \/ dim two_by_one = 0)%nat))) /\
  (flatten one_by_two = flatten two_by_one /\
   IoU.add (IoU.__init__ 2) one_by_two grid_target
   = IoU.add (IoU.__init__ 2) two_by_one grid_target).
Proof.
  destruct add_shape_checks as [Hfirst Hsecond].
  assert (Hb : size one_by_two 0 <> size two_by_one 0) by (simpl; discriminate).
  split.
  - split; [exact Hb|]. apply Hfirst. left. exact Hb.
  - split; [reflexivity|].
    apply Hsecond; simpl; try discriminate; reflexivity.
Defined.

(** C5 does not hold for the second definition: it accepts grids of
    rank 2, and rank 3 inputs whose batch counts differ, and counts them. *)
Lemma add_accepts_any_shape :
  dim grid_pred = 2%nat /\
  IoU.add (IoU.__init__ 2) grid_pred grid_target
  = Ok ({| IoU.num_classes := 2; IoU.hist := [[1; 0]; [1; 2]] |}, []) /\
  size one_by_two 0 = Ok 1%nat /\ size two_by_one 0 = Ok 2%nat /\
  IoU.add (IoU.__init__ 2) one_by_two two_by_one
  = Ok ({| IoU.num_classes := 2; IoU.hist := [[1; 0]; [0; 1]] |}, []).
Proof. repeat split. Qed.

(** ** Facts about [nanmean] *)

Lemma Qred_idem (q : Q) : Qred (Qred q) = Qred q.
Proof. apply Qred_complete, Qred_correct. Qed.

Lemma fadd_reduced (x y : npfloat) : reduced (fadd x y).
Proof. destruct x, y; cbn [fadd reduced]; try exact I; apply Qred_idem. Qed.

Lemma fsum_reduced (xs : list npfloat) : reduced (fsum xs).
Proof. destruct xs; simpl; [reflexivity | apply fadd_reduced]. Qed.

Lemma fadd_zero_l (y : npfloat) : reduced y -> fadd (Fin 0) y = y.
Proof.
  destruct y as [| | |q]; cbn [fadd reduced]; auto. intros H. f_equal.
  transitivity (Qred q); [apply Qred_complete, Qplus_0_l | exact H].
Qed.

(** [nanmean] is the mean of the entries that are not NaN. *)
Lemma nanmean_filter (xs : list npfloat) :
  nanmean xs
  = fdiv (fsum (filter not_nan xs)) (Z.of_nat (length (filter not_nan xs))).
Proof.
  unfold nanmean, count_not_nan. f_equal.
  induction xs as [|x xs IH]; [reflexivity|].
  destruct x as [| | |q]; cbn [replace_nan map is_nan filter not_nan negb].
  - change (fsum (Fin 0 :: map _ xs)) with (fadd (Fin 0) (fsum (replace_nan xs))).
    rewrite fadd_zero_l by apply fsum_reduced. exact IH.
  - change (fsum (PInf :: filter _ xs)) with (fadd PInf (fsum (filter not_nan xs))).
    rewrite <- IH. reflexivity.
  - change (fsum (NInf :: filter _ xs)) with (fadd NInf (fsum (filter not_nan xs))).
    rewrite <- IH. reflexivity.
  - change (fsum (Fin q :: filter _ xs)) with (fadd (Fin q) (fsum (filter not_nan xs))).
    rewrite <- IH. reflexivity.
Qed.

Lemma nanmean_all_nan (n : nat) : nanmean (repeat NaN n) = NaN.
Proof.
  rewrite nanmean_filter.
  replace (filter not_nan (repeat NaN n)) with (@nil npfloat); [reflexivity|].
  induction n as [|n IH]; simpl; [reflexivity | exact IH].
Qed.

Lemma fsum_zeros (n : nat) : fsum (repeat (Fin 0) n) = Fin 0.
Proof.
  induction n as [|n IH]; [reflexivity|].
  change (fsum (repeat (Fin 0) (S n))) with (fadd (Fin 0) (fsum (repeat (Fin 0) n))).
  rewrite IH. reflexivity.
Qed.

Lemma nanmean_zeros (n : nat) :
  nanmean (repeat (Fin 0) n) = if (1 <=? n)%nat then Fin 0 else NaN.
Proof.
  rewrite nanmean_filter.
  replace (filter not_nan (repeat (Fin 0) n)) with (repeat (Fin 0) n)
    by (induction n as [|n IH]; simpl; [reflexivity | now rewrite <- IH]).
  rewrite fsum_zeros, repeat_length.
  destruct n as [|n]; [reflexivity|].
  unfold fdiv. destruct (Z.eqb_spec (Z.of_nat (S n)) 0) as [E|E]; [lia|].
  reflexivity.
Qed.

(** ** Facts about the derived vectors *)

Lemma nth_map_lt {A B : Type} (f : A -> B) (l : list A) (k : nat) (d : A) (d' : B) :
  (k < length l)%nat -> nth k (map f l) d' = f (nth k l d).
Proof.
  intros Hk. rewrite (nth_indep _ d' (f d)) by now rewrite length_map.
  apply map_nth.
Qed.

Lemma nth_tl {A : Type} (l : list A) (k : nat) (d : A) :
  nth k (tl l) d = nth (S k) l d.
Proof. destruct l; [now destruct k | reflexivity]. Qed.

Lemma length_tl {A : Type} (l : list A) : length (tl l) = (length l - 1)%nat.
Proof. destruct l; simpl; lia. Qed.

Lemma length_diag (M : matrix) : length (diag M) = length M.
Proof. unfold diag. now rewrite length_map, length_seq. Qed.

Lemma nth_diag (M : matrix) (c : nat) :
  (c < length M)%nat -> nth c (diag M) 0 = entry M c c.
Proof. intros Hc. unfold diag. now rewrite nth_map_seq. Qed.

Lemma length_sum1 (M : matrix) : length (sum1 M) = length M.
Proof. unfold sum1. now rewrite length_map. Qed.

Lemma nth_sum1 (M : matrix) (c : nat) :
  (c < length M)%nat -> nth c (sum1 M) 0 = vsum (nth c M []).
Proof. intros Hc. unfold sum1. now apply nth_map_lt. Qed.

Lemma ncols_square (n : nat) (M : matrix) : has_shape n n M -> ncols M = n.
Proof.
  intros [Hr Hc]. unfold ncols. destruct M as [|row M]; simpl in *; [exact Hr|].
  now inversion Hc.
Qed.

Lemma length_sum0 (M : matrix) : length (sum0 M) = ncols M.
Proof. unfold sum0. now rewrite length_map, length_seq. Qed.

Lemma nth_sum0 (M : matrix) (c : nat) :
  (c < ncols M)%nat -> nth c (sum0 M) 0 = vsum (column M c).
Proof. intros Hc. unfold sum0. now rewrite nth_map_seq. Qed.

Lemma length_iou (n : nat) (M : matrix) :
  has_shape n n M -> length (MetricIoU.iou M) = n.
Proof.
  intros HM. pose proof (ncols_square n M HM) as Hn. destruct HM as [Hr _].
  unfold MetricIoU.iou, MetricIoU.false_positive, MetricIoU.false_negative,
    MetricIoU.true_positive, vdiv, vadd, vsub.
  rewrite !length_zip_with, !length_diag, !length_sum0, !length_sum1. lia.
Qed.

(** Entry [c] of the quotient of line 90. *)
Lemma nth_iou (n : nat) (M : matrix) (c : nat) :
  has_shape n n M -> (c < n)%nat ->
  nth c (MetricIoU.iou M) NaN
  = true_divide (entry M c c)
                (entry M c c + (vsum (column M c) - entry M c c)
                 + (vsum (nth c M []) - entry M c c)).
Proof.
  intros HM Hc. pose proof (ncols_square n M HM) as Hn.
  assert (Hr : length M = n) by apply HM.
  unfold MetricIoU.iou, MetricIoU.false_positive, MetricIoU.false_negative,
    MetricIoU.true_positive, vdiv, vadd, vsub.
  rewrite (nth_zip_with _ _ _ c 0 0)
    by (rewrite ?length_zip_with, ?length_diag, ?length_sum0, ?length_sum1; lia).
  rewrite (nth_zip_with _ _ _ c 0 0)
    by (rewrite ?length_zip_with, ?length_diag, ?length_sum0, ?length_sum1; lia).
  rewrite (nth_zip_with _ _ _ c 0 0)
    by (rewrite ?length_zip_with, ?length_diag, ?length_sum0, ?length_sum1; lia).
  rewrite (nth_zip_with _ (sum0 M) _ c 0 0)
    by (rewrite ?length_zip_with, ?length_diag, ?length_sum0, ?length_sum1; lia).
  rewrite (nth_zip_with _ (sum1 M) _ c 0 0)
    by (rewrite ?length_zip_with, ?length_diag, ?length_sum0, ?length_sum1; lia).
  rewrite nth_diag, nth_sum0, nth_sum1 by lia. reflexivity.
Qed.

Lemma true_divide_floor_not_nan (x y : Z) : is_nan (true_divide x (Z.max y 1)) = false.
Proof.
  unfold true_divide, fdiv.
  destruct (Z.eqb_spec (Z.max y 1) 0); [lia | reflexivity].
Qed.

Lemma vdiv_floor_not_nan (u w : vector) :
  Forall (fun x => is_nan x = false) (vdiv u (maximum w 1)).
Proof.
  unfold vdiv, zip_with, maximum. revert w.
  induction u as [|x u IH]; intros [|y w]; simpl; constructor.
  - apply true_divide_floor_not_nan.
  - apply IH.
Qed.

Lemma length_per_class_iu (n : nat) (M : matrix) :
  has_shape n n M -> length (fst (IoU.per_class_iu M)) = (n - 1)%nat.
Proof.
  intros HM. pose proof (ncols_square n M HM) as Hn. destruct HM as [Hr _].
  unfold IoU.per_class_iu, vdiv, maximum, from1, vsub, vadd. cbn [fst].
  rewrite length_zip_with, length_map, !length_tl, !length_zip_with,
    !length_diag, !length_sum0, !length_sum1. lia.
Qed.

(** Entry [c - 1] of [per_class_iu], the one of class [c >= 1]. *)
Lemma nth_per_class_iu (n : nat) (M : matrix) (c : nat) :
  has_shape n n M -> (1 <= c < n)%nat ->
  nth (c - 1) (fst (IoU.per_class_iu M)) NaN
  = true_divide (entry M c c)
                (Z.max (vsum (nth c M []) + vsum (column M c) - entry M c c) 1).
Proof.
  intros HM Hc. pose proof (ncols_square n M HM) as Hn.
  assert (Hr : length M = n) by apply HM.
  unfold IoU.per_class_iu, vdiv, maximum, from1, vsub, vadd. cbn [fst].
  rewrite (nth_zip_with _ _ _ (c - 1) 0 0)
    by (rewrite ?length_map, ?length_tl, ?length_zip_with, ?length_diag,
          ?length_sum0, ?length_sum1; lia).
  rewrite (nth_map_lt _ _ _ 0)
    by (rewrite ?length_tl, ?length_zip_with, ?length_diag,
          ?length_sum0, ?length_sum1; lia).
  rewrite !nth_tl. replace (S (c - 1)) with c by lia.
  rewrite (nth_zip_with _ _ _ c 0 0)
    by (rewrite ?length_zip_with, ?length_diag, ?length_sum0, ?length_sum1; lia).
  rewrite (nth_zip_with _ _ _ c 0 0)
    by (rewrite ?length_zip_with, ?length_diag, ?length_sum0, ?length_sum1; lia).
  rewrite nth_diag, nth_sum0, nth_sum1 by lia. reflexivity.
Qed.

Lemma length_per_class_PA (M : matrix) : length (IoU.per_class_PA M) = length M.
Proof.
  unfold IoU.per_class_PA, vdiv, maximum.
  rewrite length_zip_with, length_map, length_diag, length_sum1. lia.
Qed.

Lemma nth_per_class_PA (M : matrix) (c : nat) :
  (c < length M)%nat ->
  nth c (IoU.per_class_PA M) NaN
  = true_divide (entry M c c) (Z.max (vsum (nth c M [])) 1).
Proof.
  intros Hc. unfold IoU.per_class_PA, vdiv, maximum.
  rewrite (nth_zip_with _ _ _ c 0 0)
    by (rewrite ?length_map, ?length_diag, ?length_sum1; lia).
  rewrite (nth_map_lt _ _ _ 0) by (rewrite length_sum1; lia).
  rewrite nth_diag, nth_sum1 by lia. reflexivity.
Qed.

(** ** The IoU of a confusion matrix *)

(** C2, for each of the two definitions.  In the first definition, [value()] yields for
    every class [c < N] the quotient
    [M[c][c] / (M[c][c] + (column_sum[c] - M[c][c]) + (row_sum[c] - M[c][c]))],
    a [0/0] is NaN, and the mean is taken over the entries that are not
    NaN.  In the second definition [value()] returns the entries of the
    classes [1 .. N-1] only, each
    [M[c][c] / max(row_sum[c] + column_sum[c] - M[c][c], 1)]: none of them is
    NaN, and all of them enter the mean. *)
Theorem value_iou_formula :
  (forall (C : Type) (conf_value : C -> matrix) (self : MetricIoU.t C) (n c : nat),
      MetricIoU.ignore_index C self = None ->
      has_shape n n (conf_value (MetricIoU.conf_metric C self)) ->
      (c < n)%nat ->
      exists v,
        MetricIoU.value C conf_value self = Ok (v, nanmean v) /\
        length v = n /\
        nth c v NaN
        = true_divide
            (entry (conf_value (MetricIoU.conf_metric C self)) c c)
            (entry (conf_value (MetricIoU.conf_metric C self)) c c
             + (vsum (column (conf_value (MetricIoU.conf_metric C self)) c)
                - entry (conf_value (MetricIoU.conf_metric C self)) c c)
             + (vsum (nth c (conf_value (MetricIoU.conf_metric C self)) [])
                - entry (conf_value (MetricIoU.conf_metric C self)) c c)) /\
        nanmean v
        = fdiv (fsum (filter not_nan v)) (Z.of_nat (length (filter not_nan v)))) /\
  true_divide 0 0 = NaN /\
  (forall (n : nat) (M : matrix) (c : nat),
      has_shape n n M ->
      (1 <= c < n)%nat ->
      length (fst (fst (IoU.value {| IoU.num_classes := n; IoU.hist := M |})))
      = (n - 1)%nat /\
      nth (c - 1) (fst (fst (IoU.value {| IoU.num_classes := n; IoU.hist := M |}))) NaN
      = true_divide (entry M c c)
                    (Z.max (vsum (nth c M []) + vsum (column M c) - entry M c c) 1) /\
      Forall (fun x => is_nan x = false)
             (fst (fst (IoU.value {| IoU.num_classes := n; IoU.hist := M |}))) /\
      snd (fst (IoU.value {| IoU.num_classes := n; IoU.hist := M |}))
      = nanmean (fst (fst (IoU.value {| IoU.num_classes := n; IoU.hist := M |})))).
Proof.
  split; [|split].
  - intros C conf_value self n c Hign HM Hc.
    exists (MetricIoU.iou (conf_value (MetricIoU.conf_metric C self))).
    split; [|split; [|split]].
    + unfold MetricIoU.value, MetricIoU.value_of. rewrite Hign. reflexivity.
    + now apply length_iou.
    + now apply (nth_iou n).
    + apply nanmean_filter.
  - reflexivity.
  - intros n M c HM Hc.
    change (fst (fst (IoU.value {| IoU.num_classes := n; IoU.hist := M |})))
      with (fst (IoU.per_class_iu M)).
    split; [|split; [|split]].
    + now apply length_per_class_iu.
    + now apply (nth_per_class_iu n).
    + unfold IoU.per_class_iu. cbn [fst]. apply vdiv_floor_not_nan.
    + reflexivity.
Qed.

Lemma value_iou_formula_witness :
  (MetricIoU.ignore_index matrix (held one_class_seen) = None /\
   has_shape 2 2 one_class_seen /\ (1 < 2)%nat /\
   exists v,
     MetricIoU.value matrix (fun M => M) (held one_class_seen) = Ok (v, nanmean v) /\
     length v = 2%nat /\
     nth 1 v NaN = NaN /\
     nanmean v = Fin 1) /\
  (has_shape 2 2 one_class_seen /\ (1 <= 1 < 2)%nat /\
   nth 0 (fst (fst (IoU.value {| IoU.num_classes := 2; IoU.hist := one_class_seen |})))
       NaN
   = Fin 0).
Proof.
  destruct value_iou_formula as [Hfirst [_ Hsecond]].
  assert (Hs : has_shape 2 2 one_class_seen) by (split; [reflexivity | repeat constructor]).
  split.
  - split; [reflexivity|]. split; [exact Hs|]. split; [lia|].
    destruct (Hfirst matrix (fun M => M) (held one_class_seen) 2%nat 1%nat
                     eq_refl Hs ltac:(lia)) as [v [Hv [Hl [Hn Hm]]]].
    exists v. injection Hv as Hv. subst v.
    split; [reflexivity|]. split; [exact Hl|]. split; [exact Hn | reflexivity].
  - split; [exact Hs|]. split; [lia|].
    destruct (Hsecond 2%nat one_class_seen 1%nat Hs ltac:(lia)) as [_ [Hn _]].
    exact Hn.
Defined.

(** C2 does not hold for the second definition: with class 1 never
    observed its quotient is [0/0], yet [value()] returns 0 for it, not NaN,
    gives no entry for class 0, and the mean counts the 0. *)
Lemma value_floors_the_denominator :
  true_divide (entry one_class_seen 1 1)
              (entry one_class_seen 1 1
               + (vsum (column one_class_seen 1) - entry one_class_seen 1 1)
               + (vsum (nth 1 one_class_seen []) - entry one_class_seen 1 1))
  = NaN /\
  fst (IoU.value {| IoU.num_classes := 2; IoU.hist := one_class_seen |})
  = ([Fin 0], Fin 0) /\
  nanmean [Fin 1; NaN] = Fin 1.
Proof. repeat split. Qed.

(** ** The fresh accumulator *)

Lemma vsum_zeros (n : nat) : vsum (repeat 0 n) = 0.
Proof. induction n as [|n IH]; simpl; [reflexivity | exact IH]. Qed.

Lemma diag_zeros (n : nat) : diag (zeros n n) = repeat 0 n.
Proof.
  unfold diag. replace (length (zeros n n)) with n
    by (symmetry; apply repeat_length).
  rewrite (map_ext _ (fun _ => 0)) by (intros i; apply entry_zeros).
  now rewrite map_const, length_seq.
Qed.

Lemma sum1_zeros (n : nat) : sum1 (zeros n n) = repeat 0 n.
Proof. unfold sum1, zeros. now rewrite map_repeat, vsum_zeros. Qed.

Lemma sum0_zeros (n : nat) : sum0 (zeros n n) = repeat 0 n.
Proof.
  unfold sum0. rewrite (ncols_square n) by apply has_shape_zeros.
  rewrite (map_ext _ (fun _ => 0)).
  - now rewrite map_const, length_seq.
  - intros j. unfold column, zeros. rewrite map_repeat, nth_repeat.
    apply vsum_zeros.
Qed.

Lemma zip_with_repeat {A B C : Type} (f : A -> B -> C) (a : A) (b : B) (n : nat) :
  zip_with f (repeat a n) (repeat b n) = repeat (f a b) n.
Proof.
  unfold zip_with. induction n as [|n IH]; simpl; [reflexivity | now rewrite IH].
Qed.

Lemma tl_repeat {A : Type} (a : A) (n : nat) : tl (repeat a n) = repeat a (n - 1).
Proof. destruct n; simpl; [reflexivity | now rewrite Nat.sub_0_r]. Qed.

Lemma iou_zeros (n : nat) : MetricIoU.iou (zeros n n) = repeat NaN n.
Proof.
  unfold MetricIoU.iou, MetricIoU.false_positive, MetricIoU.false_negative,
    MetricIoU.true_positive, vdiv, vadd, vsub.
  rewrite diag_zeros, sum0_zeros, sum1_zeros. now rewrite !zip_with_repeat.
Qed.

Lemma per_class_iu_zeros (n : nat) :
  fst (IoU.per_class_iu (zeros n n)) = repeat (Fin 0) (n - 1).
Proof.
  unfold IoU.per_class_iu, vdiv, vadd, vsub, maximum, from1. cbn [fst].
  rewrite diag_zeros, sum0_zeros, sum1_zeros, !zip_with_repeat, !tl_repeat,
    map_repeat.
  now rewrite zip_with_repeat.
Qed.

(** C4, with the values the code computes.  A freshly constructed or reset accumulator
    holds the all-zero N by N matrix.  [value()] on it returns the N-1
    entries of the classes 1 .. N-1, all equal to 0, and their mean: 0 when
    there is such a class and NaN when there is none.  The quotient
    tp/(tp+fp+fn) of the first definition is NaN for every class of the
    all-zero matrix, with a NaN mean. *)
Theorem fresh_accumulator_value (N : nat) :
  IoU.hist (IoU.__init__ N) = zeros N N /\
  (forall self : IoU.t,
      IoU.hist (IoU.reset self) = zeros (IoU.num_classes self) (IoU.num_classes self) /\
      IoU.num_classes (IoU.reset self) = IoU.num_classes self) /\
  has_shape N N (zeros N N) /\
  (forall i j, entry (zeros N N) i j = 0) /\
  fst (IoU.value (IoU.__init__ N))
  = (repeat (Fin 0) (N - 1), if (2 <=? N)%nat then Fin 0 else NaN) /\
  MetricIoU.value_of None (zeros N N) = Ok (repeat NaN N, NaN).
Proof.
  split; [reflexivity|]. split; [intros self; split; reflexivity|].
  split; [apply has_shape_zeros|]. split; [intros i j; apply entry_zeros|].
  split.
  - change (fst (IoU.value (IoU.__init__ N)))
      with (fst (IoU.per_class_iu (zeros N N)),
            nanmean (fst (IoU.per_class_iu (zeros N N)))).
    rewrite per_class_iu_zeros, nanmean_zeros.
    destruct N as [|[|N]]; reflexivity.
  - unfold MetricIoU.value_of. cbn [MetricIoU.apply_ignore bind].
    now rewrite iou_zeros, nanmean_all_nan.
Qed.

(** C4 does not hold as written: on a fresh accumulator of two classes [value()]
    returns the vector [0.0] and the mean 0.0, neither of them NaN. *)
Lemma fresh_value_is_zero_not_nan :
  fst (IoU.value (IoU.__init__ 2)) = ([Fin 0], Fin 0) /\
  Forall (fun x => is_nan x = false) (fst (fst (IoU.value (IoU.__init__ 2)))) /\
  is_nan (snd (fst (IoU.value (IoU.__init__ 2)))) = false.
Proof. repeat split. repeat constructor. Qed.

(** ** The ignored class *)

(** C8.  Constructed with [ignore_index=0], the first definition keeps the
    tuple [(0,)]; on a 3-class confusion matrix [value()] then zeroes
    column 0 and row 0 before anything is derived, so that whatever the
    class-0 counts [a b c d g] are, the true positives, false positives and
    false negatives of classes 1 and 2 are those of the remaining 2 by 2
    block, those of class 0 are zero, [iou[0]] is NaN and the mean is the
    mean over classes 1 and 2. *)
Theorem ignore_index_zero
        (C : Type) (conf_new : nat -> bool -> C) (conf_value : C -> matrix)
        (normalized : bool) (a b c d e f g h i : Z) :
  MetricIoU.__init__ C conf_new 3 normalized (MetricIoU.IgnoreInt 0)
  = Ok {| MetricIoU.conf_metric := conf_new 3%nat normalized;
          MetricIoU.ignore_index := Some [0] |} /\
  (forall self : MetricIoU.t C,
      MetricIoU.value C conf_value self
      = MetricIoU.value_of (MetricIoU.ignore_index C self)
                           (conf_value (MetricIoU.conf_metric C self))) /\
  MetricIoU.apply_ignore (Some [0]) [[a; b; c]; [d; e; f]; [g; h; i]]
  = Ok [[0; 0; 0]; [0; e; f]; [0; h; i]] /\
  MetricIoU.true_positive [[0; 0; 0]; [0; e; f]; [0; h; i]] = [0; e; i] /\
  MetricIoU.false_positive [[0; 0; 0]; [0; e; f]; [0; h; i]] = [0; h; f] /\
  MetricIoU.false_negative [[0; 0; 0]; [0; e; f]; [0; h; i]] = [0; f; h] /\
  MetricIoU.value_of (Some [0]) [[a; b; c]; [d; e; f]; [g; h; i]]
  = Ok ([NaN; true_divide e (e + h + f); true_divide i (i + f + h)],
        nanmean [true_divide e (e + h + f); true_divide i (i + f + h)]).
Proof.
  split; [reflexivity|]. split; [reflexivity|]. split; [reflexivity|].
  split; [reflexivity|].
  split.
  { change (MetricIoU.false_positive [[0; 0; 0]; [0; e; f]; [0; h; i]])
      with [0; 0 + (e + (h + 0)) - e; 0 + (f + (i + 0)) - i].
    repeat f_equal; lia. }
  split.
  { change (MetricIoU.false_negative [[0; 0; 0]; [0; e; f]; [0; h; i]])
      with [0; 0 + (e + (f + 0)) - e; 0 + (h + (i + 0)) - i].
    repeat f_equal; lia. }
  unfold MetricIoU.value_of.
  change (MetricIoU.apply_ignore (Some [0]) [[a; b; c]; [d; e; f]; [g; h; i]])
    with (Ok [[0; 0; 0]; [0; e; f]; [0; h; i]]).
  cbn [bind].
  assert (E : MetricIoU.iou [[0; 0; 0]; [0; e; f]; [0; h; i]]
              = [NaN; true_divide e (e + h + f); true_divide i (i + f + h)]).
  { change (MetricIoU.iou [[0; 0; 0]; [0; e; f]; [0; h; i]])
      with [NaN;
            true_divide e (e + (0 + (e + (h + 0)) - e) + (0 + (e + (f + 0)) - e));
            true_divide i (i + (0 + (f + (i + 0)) - i) + (0 + (h + (i + 0)) - i))].
    repeat f_equal; lia. }
  rewrite E. f_equal. f_equal.
  rewrite !nanmean_filter. reflexivity.
Qed.

(** ** Pixel accuracy *)

Lemma vsum_nonneg (row : vector) : Forall (fun x => 0 <= x) row -> 0 <= vsum row.
Proof. induction 1 as [|x row Hx _ IH]; simpl; lia. Qed.

Lemma zero_sum_zero_entry (row : vector) (c : nat) :
  Forall (fun x => 0 <= x) row -> vsum row = 0 -> nth c row 0 = 0.
Proof.
  intros H. revert c. induction H as [|x row Hx Hrow IH]; intros c Hs.
  - now destruct c.
  - simpl in Hs. pose proof (vsum_nonneg row Hrow).
    destruct c as [|c]; simpl; [lia | apply IH; lia].
Qed.

(** C9, with what [value()] returns.  In the second definition the accuracy of
    class [c] is [M[c][c] / max(row_sum[c], 1)], never NaN, and 0 when the
    class never appears as ground truth.  [value()] computes this vector but
    returns the pair of the IoU vector and the mean IoU only; the accuracy
    shows in the printed summary, as its mean. *)
Theorem pixel_accuracy (n : nat) (M : matrix) (c : nat) :
  has_shape n n M ->
  nonneg M ->
  (c < n)%nat ->
  nth c (IoU.per_class_PA M) NaN
  = true_divide (entry M c c) (Z.max (vsum (nth c M [])) 1) /\
  is_nan (nth c (IoU.per_class_PA M) NaN) = false /\
  (vsum (nth c M []) = 0 -> nth c (IoU.per_class_PA M) NaN = Fin 0) /\
  fst (IoU.value {| IoU.num_classes := n; IoU.hist := M |})
  = (fst (IoU.per_class_iu M), nanmean (fst (IoU.per_class_iu M))) /\
  snd (IoU.value {| IoU.num_classes := n; IoU.hist := M |})
  = snd (IoU.per_class_iu M)
    ++ [IoU.PrintSummary (nanmean (fst (IoU.per_class_iu M)))
                         (nanmean (IoU.per_class_PA M))].
Proof.
  intros [Hr Hc] Hpos Hlt.
  assert (E : nth c (IoU.per_class_PA M) NaN
              = true_divide (entry M c c) (Z.max (vsum (nth c M [])) 1))
    by (apply nth_per_class_PA; lia).
  split; [exact E|]. split; [|split; [|split; reflexivity]].
  - rewrite E. apply true_divide_floor_not_nan.
  - intros Hz. rewrite E, Hz. unfold entry.
    rewrite zero_sum_zero_entry; [reflexivity | | exact Hz].
    unfold nonneg in Hpos. rewrite Forall_forall in Hpos.
    apply Hpos, nth_In. lia.
Qed.

Lemma pixel_accuracy_witness :
  has_shape 2 2 one_class_seen /\ nonneg one_class_seen /\ (1 < 2)%nat /\
  vsum (nth 1 one_class_seen []) = 0 /\
  nth 1 (IoU.per_class_PA one_class_seen) NaN = Fin 0 /\
  fst (IoU.value {| IoU.num_classes := 2; IoU.hist := one_class_seen |})
  = ([Fin 0], Fin 0).
Proof.
  assert (Hs : has_shape 2 2 one_class_seen)
    by (split; [reflexivity | repeat constructor]).
  assert (Hp : nonneg one_class_seen) by (repeat constructor; lia).
  assert (Hlt : (1 < 2)%nat) by lia.
  destruct (pixel_accuracy 2 one_class_seen 1 Hs Hp Hlt) as [_ [_ [Hz [Hv _]]]].
  split; [exact Hs|]. split; [exact Hp|]. split; [exact Hlt|].
  split; [reflexivity|]. split; [exact (Hz eq_refl) | exact Hv].
Defined.

(** C9 does not hold in its last part: for the matrix of the worked
    example the accuracy vector is [1, 2/3], and the tuple [value()]
    returns holds the IoU vector [2/3] and the mean 2/3 and nothing else. *)
Lemma value_does_not_return_accuracy :
  IoU.per_class_PA grid_hist = [Fin 1; Fin (2 # 3)] /\
  returned (fst (IoU.value {| IoU.num_classes := 2; IoU.hist := grid_hist |}))
  = [PyArray [Fin (2 # 3)]; PyFloat (Fin (2 # 3))] /\
  ~ In (PyArray (IoU.per_class_PA grid_hist))
       (returned (fst (IoU.value {| IoU.num_classes := 2; IoU.hist := grid_hist |}))).
Proof.
  split; [reflexivity|]. split; [reflexivity|].
  intros H. vm_compute in H. destruct H as [H|[H|[]]]; discriminate.
Qed.

(** ** Adding tables of counts *)

Lemma combine_app_eq {A B : Type} (a1 a2 : list A) (b1 b2 : list B) :
  length a1 = length b1 ->
  combine (a1 ++ a2) (b1 ++ b2) = combine a1 b1 ++ combine a2 b2.
Proof.
  revert b1. induction a1 as [|x a1 IH]; intros [|y b1] H; simpl in *;
    try discriminate; [reflexivity|].
  rewrite IH by lia. reflexivity.
Qed.

Lemma kept_app (n : nat) (a1 a2 b1 b2 : list Z) :
  length a1 = length b1 ->
  kept n (a1 ++ a2) (b1 ++ b2) = kept n a1 b1 ++ kept n a2 b2.
Proof. intros H. unfold kept. now rewrite combine_app_eq, filter_app. Qed.

Lemma bins_ok_app (n : nat) (x y : list Z) :
  bins_ok n (x ++ y) = bins_ok n x && bins_ok n y.
Proof. apply forallb_app. Qed.

Lemma matrix_ext (r c : nat) (M H : matrix) :
  has_shape r c M -> has_shape r c H ->
  (forall i j, (i < r)%nat -> (j < c)%nat -> entry M i j = entry H i j) ->
  M = H.
Proof.
  intros HM HH Hentry.
  apply (nth_ext M H [] []); [destruct HM, HH; lia|].
  intros i Hi. assert (Hir : (i < r)%nat) by (destruct HM; lia).
  apply (nth_ext _ _ 0 0).
  - now rewrite (has_shape_row r c M), (has_shape_row r c H).
  - intros j Hj. rewrite (has_shape_row r c M) in Hj by assumption.
    now apply Hentry.
Qed.

Lemma has_shape_hist_of_bins (n : nat) (x : list Z) :
  has_shape n n (hist_of_bins n x).
Proof.
  apply chunks_shape. rewrite length_map, length_seq. simpl. lia.
Qed.

Lemma entry_hist_of_bins (n : nat) (x : list Z) (i j : nat) :
  (i < n)%nat -> (j < n)%nat ->
  entry (hist_of_bins n x) i j
  = Z.of_nat (count_occ Z.eq_dec x (Z.of_nat (i * n + j))).
Proof.
  intros Hi Hj. unfold hist_of_bins. rewrite entry_chunks by assumption.
  rewrite nth_map_seq by (simpl; nia). reflexivity.
Qed.

Lemma hist_of_bins_app (n : nat) (x y : list Z) :
  hist_of_bins n (x ++ y) = madd (hist_of_bins n x) (hist_of_bins n y).
Proof.
  apply (matrix_ext n n).
  - apply has_shape_hist_of_bins.
  - apply has_shape_madd; apply has_shape_hist_of_bins.
  - intros i j Hi Hj.
    rewrite (entry_madd n n) by (assumption || apply has_shape_hist_of_bins).
    rewrite !entry_hist_of_bins by assumption.
    rewrite count_occ_app. lia.
Qed.

Lemma zip_with_assoc {A : Type} (f : A -> A -> A) (u v w : list A) :
  (forall x y z, f (f x y) z = f x (f y z)) ->
  zip_with f (zip_with f u v) w = zip_with f u (zip_with f v w).
Proof.
  intros Hf. unfold zip_with. revert v w.
  induction u as [|x u IH]; intros [|y v] [|z w]; simpl; try reflexivity.
  now rewrite Hf, IH.
Qed.

Lemma zip_with_comm {A : Type} (f : A -> A -> A) (u v : list A) :
  (forall x y, f x y = f y x) -> zip_with f u v = zip_with f v u.
Proof.
  intros Hf. unfold zip_with. revert v.
  induction u as [|x u IH]; intros [|y v]; simpl; try reflexivity.
  now rewrite Hf, IH.
Qed.

Lemma vadd_assoc (u v w : vector) : vadd (vadd u v) w = vadd u (vadd v w).
Proof. apply zip_with_assoc. intros; lia. Qed.

Lemma vadd_comm (u v : vector) : vadd u v = vadd v u.
Proof. apply zip_with_comm. intros; lia. Qed.

Lemma madd_assoc (M H K : matrix) : madd (madd M H) K = madd M (madd H K).
Proof. apply zip_with_assoc, vadd_assoc. Qed.

Lemma madd_comm (M H : matrix) : madd M H = madd H M.
Proof. apply zip_with_comm, vadd_comm. Qed.

Lemma madd_zeros_r (n : nat) (M : matrix) : has_shape n n M -> madd M (zeros n n) = M.
Proof.
  intros HM. apply (matrix_ext n n).
  - apply has_shape_madd; [exact HM | apply has_shape_zeros].
  - exact HM.
  - intros i j Hi Hj.
    rewrite (entry_madd n n) by (assumption || apply has_shape_zeros).
    rewrite entry_zeros. lia.
Qed.

Lemma madd_zeros_l (n : nat) (M : matrix) : has_shape n n M -> madd (zeros n n) M = M.
Proof. intros HM. rewrite madd_comm. now apply madd_zeros_r. Qed.

(** ** Concatenated batches *)

Lemma chunks_app {A : Type} (n1 n2 m : nat) (d1 d2 : list A) :
  length d1 = (n1 * m)%nat ->
  chunks (n1 + n2) m (d1 ++ d2) = chunks n1 m d1 ++ chunks n2 m d2.
Proof.
  revert d1. induction n1 as [|n1 IH]; intros d1 Hlen.
  - apply length_zero_iff_nil in Hlen. now subst d1.
  - simpl. rewrite firstn_app, skipn_app.
    replace (m - length d1)%nat with O by lia. simpl.
    rewrite app_nil_r, IH by (rewrite length_skipn; lia). reflexivity.
Qed.

Lemma max1_cat (n m k : nat) (rest : list nat) (d1 d2 : list Z) :
  length d1 = numel (n :: k :: rest) ->
  k <> O ->
  max1 {| shape := (n + m)%nat :: k :: rest; data := d1 ++ d2 |}
  = Ok {| shape := (n + m)%nat :: rest;
          data := concat (map (argmax_planes k (numel rest))
                              (chunks n (k * numel rest) d1))
                  ++ concat (map (argmax_planes k (numel rest))
                                 (chunks m (k * numel rest) d2)) |}.
Proof.
  intros Hlen Hk. unfold max1. cbn [shape data].
  destruct (Nat.eqb_spec k 0); [contradiction|].
  rewrite chunks_app by exact Hlen. now rewrite map_app, concat_app.
Qed.

(** The rank reduction of a concatenated batch is the concatenation of
    the rank reductions. *)
Lemma reduce_cat (x y xy px py : tensor) :
  well_formed x ->
  cat x y = Ok xy ->
  IoU.reduce x = Ok px ->
  IoU.reduce y = Ok py ->
  exists pxy, IoU.reduce xy = Ok pxy /\ flatten pxy = flatten px ++ flatten py.
Proof.
  intros Hwf Hcat Hx Hy. destruct x as [sx dx], y as [sy dy].
  unfold well_formed in Hwf. unfold cat in Hcat. cbn [shape data] in *.
  destruct sx as [|n rest]; [discriminate|].
  destruct sy as [|m rest']; [discriminate|].
  destruct (list_eq_dec Nat.eq_dec rest rest') as [<-|]; [|discriminate].
  injection Hcat as <-.
  unfold IoU.reduce, dim in *. cbn [shape length] in *.
  destruct (Nat.eqb_spec (S (length rest)) 4) as [H4|H4].
  - destruct rest as [|k rest]; [discriminate|].
    unfold max1 in Hx, Hy. cbn [shape data] in Hx, Hy.
    destruct (Nat.eqb_spec k 0) as [|Hk]; [discriminate|].
    injection Hx as <-. injection Hy as <-.
    rewrite (max1_cat n m k rest dx dy Hwf Hk).
    eexists. split; reflexivity.
  - injection Hx as <-. injection Hy as <-. eexists. split; reflexivity.
Qed.

(** ** Accumulation over batches *)

Lemma fast_hist_shape (a b : list Z) (n : nat) (h : matrix) :
  length b = length a -> IoU.fast_hist a b n = Ok h -> has_shape n n h.
Proof.
  intros Hlen H. rewrite (fast_hist_eq a b n Hlen) in H.
  destruct (bins_ok n _); [|discriminate].
  injection H as <-. apply has_shape_hist_of_bins.
Qed.

Lemma update_shape (n : nat) (b : tensor * tensor) (h : matrix) :
  update n b = Ok h -> has_shape n n h.
Proof.
  unfold update. intros H.
  apply bind_ok in H. destruct H as [p [_ H]].
  apply bind_ok in H. destruct H as [l [_ H]].
  destruct (Nat.eqb_spec (length (flatten l)) (length (flatten p))) as [E|E];
    cbn [negb] in H.
  - apply (fast_hist_shape (flatten l) (flatten p)); [now symmetry | exact H].
  - injection H as <-. apply has_shape_zeros.
Qed.

Lemma total_shape (n : nat) (bs : list (tensor * tensor)) (t : matrix) :
  total n bs = Ok t -> has_shape n n t.
Proof.
  revert t. induction bs as [|b bs IH]; intros t H; simpl in H.
  - injection H as <-. apply has_shape_zeros.
  - apply bind_ok in H. destruct H as [h [Hh H]].
    apply bind_ok in H. destruct H as [t' [Ht H]].
    injection H as <-.
    apply has_shape_madd; [now apply (update_shape n b) | now apply IH].
Qed.

(** One [add] adds the table of its batch. *)
Lemma add_update (self : IoU.t) (pred label : tensor) :
  has_shape (IoU.num_classes self) (IoU.num_classes self) (IoU.hist self) ->
  bind (IoU.add self pred label) (fun r => Ok (fst r))
  = bind (update (IoU.num_classes self) (pred, label))
         (fun h => Ok {| IoU.num_classes := IoU.num_classes self;
                         IoU.hist := madd (IoU.hist self) h |}).
Proof.
  intros Hs. unfold IoU.add, update. cbn [fst snd].
  destruct (IoU.reduce pred) as [p|e]; [|reflexivity].
  destruct (IoU.reduce label) as [l|e]; [|reflexivity].
  cbn [bind].
  destruct (Nat.eqb_spec (length (flatten l)) (length (flatten p))) as [E|E];
    cbn [negb].
  - destruct (IoU.fast_hist _ _ _); reflexivity.
  - cbn [bind fst]. rewrite madd_zeros_r by exact Hs. now destruct self.
Qed.

Lemma add_all_total (self : IoU.t) (bs : list (tensor * tensor)) :
  has_shape (IoU.num_classes self) (IoU.num_classes self) (IoU.hist self) ->
  IoU.add_all self bs
  = bind (total (IoU.num_classes self) bs)
         (fun t => Ok {| IoU.num_classes := IoU.num_classes self;
                         IoU.hist := madd (IoU.hist self) t |}).
Proof.
  revert self. induction bs as [|[pred label] bs IH]; intros self Hs.
  - simpl. rewrite madd_zeros_r by exact Hs. now destruct self.
  - cbn [IoU.add_all total].
    pose proof (add_update self pred label Hs) as Hadd.
    destruct (update _ (pred, label)) as [h|e] eqn:Eu.
    + destruct (IoU.add self pred label) as [[s out]|e]; [|discriminate].
      cbn [bind fst] in Hadd |- *. injection Hadd as ->.
      rewrite IH; cbn [IoU.num_classes IoU.hist].
      * destruct (total _ bs) as [t|e]; [|reflexivity].
        cbn [bind]. now rewrite madd_assoc.
      * apply has_shape_madd; [exact Hs | now apply (update_shape _ (pred, label))].
    + destruct (IoU.add self pred label) as [[s out]|e']; [discriminate|].
      cbn [bind] in Hadd |- *. exact Hadd.
Qed.

Lemma total_app (n : nat) (bs1 bs2 : list (tensor * tensor)) (t1 t2 : matrix) :
  total n bs1 = Ok t1 -> total n bs2 = Ok t2 ->
  total n (bs1 ++ bs2) = Ok (madd t1 t2).
Proof.
  intros H1 H2. revert t1 H1. induction bs1 as [|b bs1 IH]; intros t1 H1.
  - simpl in *. injection H1 as <-.
    rewrite madd_zeros_l by now apply (total_shape n bs2). exact H2.
  - simpl in *. apply bind_ok in H1. destruct H1 as [h [Hh H1]].
    apply bind_ok in H1. destruct H1 as [t [Ht H1]]. injection H1 as <-.
    rewrite Hh, (IH t Ht). cbn [bind]. now rewrite madd_assoc.
Qed.

Lemma total_perm (n : nat) (bs bs' : list (tensor * tensor)) (t : matrix) :
  Permutation bs bs' -> total n bs = Ok t -> total n bs' = Ok t.
Proof.
  intros Hperm. revert t.
  induction Hperm as [|b l l' _ IH|x y l|l l' l'' _ IH1 _ IH2]; intros t H.
  - exact H.
  - simpl in *. apply bind_ok in H. destruct H as [h [Hh H]].
    apply bind_ok in H. destruct H as [t' [Ht H]].
    rewrite Hh, (IH t' Ht). exact H.
  - simpl in *. apply bind_ok in H. destruct H as [hy [Hy H]].
    apply bind_ok in H. destruct H as [t1 [H1 H]].
    apply bind_ok in H1. destruct H1 as [hx [Hx H1]].
    apply bind_ok in H1. destruct H1 as [t2 [H2 H1]].
    injection H1 as <-. injection H as <-.
    rewrite Hx, Hy, H2. cbn [bind]. f_equal.
    rewrite <- !madd_assoc. f_equal. apply madd_comm.
  - apply IH2, IH1, H.
Qed.

Lemma update_cat (n : nat) (a1 b1 a2 b2 a b pa1 pb1 pa2 pb2 : tensor) :
  well_formed a1 -> well_formed b1 ->
  cat a1 a2 = Ok a -> cat b1 b2 = Ok b ->
  IoU.reduce a1 = Ok pa1 -> IoU.reduce b1 = Ok pb1 ->
  IoU.reduce a2 = Ok pa2 -> IoU.reduce b2 = Ok pb2 ->
  length (flatten pb1) = length (flatten pa1) ->
  length (flatten pb2) = length (flatten pa2) ->
  update n (a, b)
  = bind (update n (a1, b1))
         (fun h1 => bind (update n (a2, b2)) (fun h2 => Ok (madd h1 h2))).
Proof.
  intros Wa Wb Ca Cb Ra1 Rb1 Ra2 Rb2 L1 L2.
  destruct (reduce_cat a1 a2 a pa1 pa2 Wa Ca Ra1 Ra2) as [pa [Ra Fa]].
  destruct (reduce_cat b1 b2 b pb1 pb2 Wb Cb Rb1 Rb2) as [pb [Rb Fb]].
  unfold update. cbn [fst snd].
  rewrite Ra, Rb, Ra1, Rb1, Ra2, Rb2. cbn [bind].
  rewrite Fa, Fb, !length_app, L1, L2, !Nat.eqb_refl. cbn [negb].
  rewrite !fast_hist_eq by (rewrite ?length_app; lia).
  rewrite kept_app by exact L1. rewrite map_app, bins_ok_app, hist_of_bins_app.
  destruct (bins_ok n (map (bin n) (kept n (flatten pb1) (flatten pa1))));
    destruct (bins_ok n (map (bin n) (kept n (flatten pb2) (flatten pa2))));
    reflexivity.
Qed.

(** C7.  Two [add] calls on a fresh accumulator give the result of one
    [add] of the concatenated batch, when each batch has as many true as
    predicted labels; and when two accumulators are fed two parts of a list
    of batches, an accumulator fed all of them, in any order, ends with the
    elementwise sum of their two matrices, so that the statistics derived
    from the sum are those of that accumulator. *)
Theorem accumulation_is_additive :
  (forall (N : nat) (a1 b1 a2 b2 a b pa1 pb1 pa2 pb2 : tensor),
      well_formed a1 -> well_formed b1 ->
      cat a1 a2 = Ok a -> cat b1 b2 = Ok b ->
      IoU.reduce a1 = Ok pa1 -> IoU.reduce b1 = Ok pb1 ->
      IoU.reduce a2 = Ok pa2 -> IoU.reduce b2 = Ok pb2 ->
      length (flatten pb1) = length (flatten pa1) ->
      length (flatten pb2) = length (flatten pa2) ->
      IoU.add_all (IoU.__init__ N) [(a1, b1); (a2, b2)]
      = IoU.add_all (IoU.__init__ N) [(a, b)]) /\
  (forall (N : nat) (bs1 bs2 bs : list (tensor * tensor)) (s1 s2 : IoU.t),
      Permutation bs (bs1 ++ bs2) ->
      IoU.add_all (IoU.__init__ N) bs1 = Ok s1 ->
      IoU.add_all (IoU.__init__ N) bs2 = Ok s2 ->
      exists s,
        IoU.add_all (IoU.__init__ N) bs = Ok s /\
        IoU.num_classes s = N /\
        IoU.hist s = madd (IoU.hist s1) (IoU.hist s2) /\
        IoU.value {| IoU.num_classes := N;
                     IoU.hist := madd (IoU.hist s1) (IoU.hist s2) |}
        = IoU.value s /\
        MetricIoU.value_of None (madd (IoU.hist s1) (IoU.hist s2))
        = MetricIoU.value_of None (IoU.hist s)).
Proof.
  split.
  - intros N a1 b1 a2 b2 a b pa1 pb1 pa2 pb2 Wa Wb Ca Cb Ra1 Rb1 Ra2 Rb2 L1 L2.
    rewrite !add_all_total by apply has_shape_zeros.
    f_equal. cbn [total IoU.num_classes IoU.__init__].
    rewrite (update_cat N a1 b1 a2 b2 a b pa1 pb1 pa2 pb2) by assumption.
    destruct (update N (a1, b1)) as [h1|e] eqn:E1; [|reflexivity].
    destruct (update N (a2, b2)) as [h2|e] eqn:E2; [|reflexivity].
    cbn [bind].
    pose proof (update_shape _ _ _ E1) as S1.
    pose proof (update_shape _ _ _ E2) as S2.
    rewrite (madd_zeros_r N h2) by exact S2.
    rewrite (madd_zeros_r N (madd h1 h2)) by now apply has_shape_madd.
    reflexivity.
  - intros N bs1 bs2 bs s1 s2 Hperm H1 H2.
    rewrite add_all_total in H1, H2 by apply has_shape_zeros.
    cbn [IoU.num_classes IoU.hist IoU.__init__] in H1, H2.
    apply bind_ok in H1. destruct H1 as [t1 [T1 H1]]. injection H1 as <-.
    apply bind_ok in H2. destruct H2 as [t2 [T2 H2]]. injection H2 as <-.
    pose proof (total_shape _ _ _ T1) as S1.
    pose proof (total_shape _ _ _ T2) as S2.
    cbn [IoU.hist]. rewrite !madd_zeros_l by assumption.
    assert (T : total N bs = Ok (madd t1 t2)).
    { apply (total_perm N (bs1 ++ bs2)); [now apply Permutation_sym|].
      now apply total_app. }
    exists {| IoU.num_classes := N; IoU.hist := madd t1 t2 |}.
    split; [|repeat split].
    rewrite add_all_total by apply has_shape_zeros.
    cbn [IoU.num_classes IoU.hist IoU.__init__]. rewrite T. cbn [bind].
    rewrite madd_zeros_l by now apply has_shape_madd. reflexivity.
Qed.

Lemma accumulation_is_additive_witness :
  (well_formed (pixel 0) /\ well_formed (pixel 1) /\
   cat (pixel 0) (pixel 1) = Ok (pixels 0 1) /\
   cat (pixel 1) (pixel 1) = Ok (pixels 1 1) /\
   IoU.add_all (IoU.__init__ 2) [(pixel 0, pixel 1); (pixel 1, pixel 1)]
   = IoU.add_all (IoU.__init__ 2) [(pixels 0 1, pixels 1 1)]) /\
  (Permutation [(pixel 1, pixel 1); (pixel 0, pixel 1)]
               ([(pixel 0, pixel 1)] ++ [(pixel 1, pixel 1)]) /\
   exists s,
     IoU.add_all (IoU.__init__ 2) [(pixel 1, pixel 1); (pixel 0, pixel 1)] = Ok s /\
     IoU.hist s = madd [[0; 0]; [1; 0]] [[0; 0]; [0; 1]]).
Proof.
  destruct accumulation_is_additive as [Hcat Hmerge].
  split.
  - split; [reflexivity|]. split; [reflexivity|].
    split; [reflexivity|]. split; [reflexivity|].
    apply (Hcat 2%nat (pixel 0) (pixel 1) (pixel 1) (pixel 1)
                (pixels 0 1) (pixels 1 1)
                (pixel 0) (pixel 1) (pixel 1) (pixel 1)); reflexivity.
  - split; [apply perm_swap|].
    destruct (Hmerge 2%nat [(pixel 0, pixel 1)] [(pixel 1, pixel 1)]
                     [(pixel 1, pixel 1); (pixel 0, pixel 1)]
                     {| IoU.num_classes := 2; IoU.hist := [[0; 0]; [1; 0]] |}
                     {| IoU.num_classes := 2; IoU.hist := [[0; 0]; [0; 1]] |}
                     (perm_swap _ _ _) eq_refl eq_refl)
      as [s [Hs [_ [Hh _]]]].
    exists s. split; [exact Hs | exact Hh].
Defined.

(** ** Invariants of the accumulator *)

Lemma Forall_firstn {A : Type} (P : A -> Prop) (k : nat) (v : list A) :
  Forall P v -> Forall P (firstn k v).
Proof.
  intros H. revert k. induction H as [|x v Hx _ IH]; intros [|k]; simpl;
    constructor; [exact Hx | apply IH].
Qed.

Lemma Forall_skipn {A : Type} (P : A -> Prop) (k : nat) (v : list A) :
  Forall P v -> Forall P (skipn k v).
Proof.
  intros H. revert k. induction H as [|x v Hx Hv IH]; intros [|k]; simpl;
    try constructor; try assumption. apply IH.
Qed.

Lemma Forall_chunks {A : Type} (P : A -> Prop) (r c : nat) (v : list A) :
  Forall P v -> Forall (Forall P) (chunks r c v).
Proof.
  revert v. induction r as [|r IH]; intros v Hv; simpl; constructor.
  - now apply Forall_firstn.
  - now apply IH, Forall_skipn.
Qed.

Lemma nonneg_hist_of_bins (n : nat) (x : list Z) : nonneg (hist_of_bins n x).
Proof.
  apply Forall_chunks, Forall_forall. intros v Hv.
  apply in_map_iff in Hv. destruct Hv as [i [<- _]]. lia.
Qed.

Lemma nonneg_zeros (r c : nat) : nonneg (zeros r c).
Proof.
  apply Forall_forall. intros row Hrow. apply repeat_spec in Hrow. subst row.
  apply Forall_forall. intros x Hx. apply repeat_spec in Hx. lia.
Qed.

Lemma nonneg_madd (M H : matrix) : nonneg M -> nonneg H -> nonneg (madd M H).
Proof.
  unfold nonneg, madd, zip_with. intros HM. revert H.
  induction HM as [|u M Hu _ IH]; intros [|v H] HH; simpl; constructor.
  - inversion HH as [|? ? Hv _]; subst. clear - Hu Hv. unfold vadd, zip_with.
    revert v Hv. induction Hu as [|x u Hx _ IHu]; intros [|y v] Hv; simpl;
      constructor; inversion Hv; subst; [lia | now apply IHu].
  - inversion HH; subst. now apply IH.
Qed.

Lemma nonneg_entry (M : matrix) (i j : nat) : nonneg M -> 0 <= entry M i j.
Proof.
  intros HM. unfold entry.
  destruct (Nat.ltb_spec i (length M)) as [Hi|Hi].
  - unfold nonneg in HM. rewrite Forall_forall in HM.
    specialize (HM (nth i M []) (nth_In M [] Hi)).
    destruct (Nat.ltb_spec j (length (nth i M []))) as [Hj|Hj].
    + rewrite Forall_forall in HM. apply HM, nth_In, Hj.
    + rewrite (nth_overflow (nth i M [])) by exact Hj. lia.
  - rewrite (nth_overflow M) by exact Hi. destruct j; simpl; lia.
Qed.

Lemma fast_hist_nonneg (a b : list Z) (n : nat) (h : matrix) :
  length b = length a -> IoU.fast_hist a b n = Ok h -> nonneg h.
Proof.
  intros Hlen H. rewrite (fast_hist_eq a b n Hlen) in H.
  destruct (bins_ok n _); [|discriminate].
  injection H as <-. apply nonneg_hist_of_bins.
Qed.

Lemma update_nonneg (n : nat) (b : tensor * tensor) (h : matrix) :
  update n b = Ok h -> nonneg h.
Proof.
  unfold update. intros H.
  apply bind_ok in H. destruct H as [p [_ H]].
  apply bind_ok in H. destruct H as [l [_ H]].
  destruct (Nat.eqb_spec (length (flatten l)) (length (flatten p))) as [E|E];
    cbn [negb] in H.
  - apply (fast_hist_nonneg (flatten l) (flatten p) n); [now symmetry | exact H].
  - injection H as <-. apply nonneg_zeros.
Qed.

Lemma total_nonneg (n : nat) (bs : list (tensor * tensor)) (t : matrix) :
  total n bs = Ok t -> nonneg t.
Proof.
  revert t. induction bs as [|b bs IH]; intros t H; simpl in H.
  - injection H as <-. apply nonneg_zeros.
  - apply bind_ok in H. destruct H as [h [Hh H]].
    apply bind_ok in H. destruct H as [t' [Ht H]].
    injection H as <-.
    apply nonneg_madd; [now apply (update_nonneg n b) | now apply IH].
Qed.

(** The state a successful run of [add] calls ends in. *)
Lemma add_all_state (self s : IoU.t) (bs : list (tensor * tensor)) :
  has_shape (IoU.num_classes self) (IoU.num_classes self) (IoU.hist self) ->
  IoU.add_all self bs = Ok s ->
  exists t,
    total (IoU.num_classes self) bs = Ok t /\
    s = {| IoU.num_classes := IoU.num_classes self;
           IoU.hist := madd (IoU.hist self) t |}.
Proof.
  intros Hs H. rewrite (add_all_total self bs Hs) in H.
  apply bind_ok in H. destruct H as [t [Ht H]]. injection H as <-.
  exists t. split; [exact Ht | reflexivity].
Qed.

(** X1.  A run of [add] calls that raises nothing keeps the number of
    classes, the N by N shape of [hist] and the non-negativity of its
    entries. *)
Theorem add_all_keeps_invariants (self s : IoU.t) (bs : list (tensor * tensor)) :
  has_shape (IoU.num_classes self) (IoU.num_classes self) (IoU.hist self) ->
  nonneg (IoU.hist self) ->
  IoU.add_all self bs = Ok s ->
  IoU.num_classes s = IoU.num_classes self /\
  has_shape (IoU.num_classes s) (IoU.num_classes s) (IoU.hist s) /\
  nonneg (IoU.hist s).
Proof.
  intros Hs Hn H. destruct (add_all_state self s bs Hs H) as [t [Ht ->]].
  cbn [IoU.num_classes IoU.hist]. split; [reflexivity|]. split.
  - apply has_shape_madd; [exact Hs | now apply (total_shape _ bs)].
  - apply nonneg_madd; [exact Hn | now apply (total_nonneg (IoU.num_classes self) bs)].
Qed.

Lemma add_all_keeps_invariants_witness :
  has_shape 2 2 (IoU.hist (IoU.__init__ 2)) /\
  nonneg (IoU.hist (IoU.__init__ 2)) /\
  IoU.add_all (IoU.__init__ 2) [(grid_pred, grid_target); (three_pixels, grid_target)]
  = Ok {| IoU.num_classes := 2; IoU.hist := grid_hist |} /\
  has_shape 2 2 grid_hist /\ nonneg grid_hist.
Proof.
  assert (H1 : has_shape 2 2 (IoU.hist (IoU.__init__ 2))) by apply has_shape_zeros.
  assert (H2 : nonneg (IoU.hist (IoU.__init__ 2))) by apply nonneg_zeros.
  assert (H3 : IoU.add_all (IoU.__init__ 2)
                 [(grid_pred, grid_target); (three_pixels, grid_target)]
               = Ok {| IoU.num_classes := 2; IoU.hist := grid_hist |})
    by reflexivity.
  destruct (add_all_keeps_invariants _ _ _ H1 H2 H3) as [_ [Hs Hn]].
  exact (conj H1 (conj H2 (conj H3 (conj Hs Hn)))).
Defined.

(** X2.  Counts are never decremented: after a run of [add] calls every
    cell holds at least what it held before. *)
Theorem add_all_never_decrements (self s : IoU.t) (bs : list (tensor * tensor))
        (i j : nat) :
  has_shape (IoU.num_classes self) (IoU.num_classes self) (IoU.hist self) ->
  IoU.add_all self bs = Ok s ->
  (i < IoU.num_classes self)%nat -> (j < IoU.num_classes self)%nat ->
  entry (IoU.hist self) i j <= entry (IoU.hist s) i j.
Proof.
  intros Hs H Hi Hj. destruct (add_all_state self s bs Hs H) as [t [Ht ->]].
  cbn [IoU.hist].
  rewrite (entry_madd _ _ _ _ i j Hs (total_shape _ _ _ Ht) Hi Hj).
  pose proof (nonneg_entry t i j (total_nonneg _ _ _ Ht)). lia.
Qed.

Lemma add_all_never_decrements_witness :
  has_shape 2 2 grid_hist /\
  IoU.add_all {| IoU.num_classes := 2; IoU.hist := grid_hist |}
              [(grid_pred, grid_target)]
  = Ok {| IoU.num_classes := 2; IoU.hist := [[2; 0]; [2; 4]] |} /\
  entry grid_hist 1 0 <= entry [[2; 0]; [2; 4]] 1 0.
Proof.
  assert (H1 : has_shape 2 2 grid_hist) by (split; [reflexivity | repeat constructor]).
  assert (H2 : IoU.add_all {| IoU.num_classes := 2; IoU.hist := grid_hist |}
                           [(grid_pred, grid_target)]
               = Ok {| IoU.num_classes := 2; IoU.hist := [[2; 0]; [2; 4]] |})
    by reflexivity.
  split; [exact H1|]. split; [exact H2|].
  apply (add_all_never_decrements
           {| IoU.num_classes := 2; IoU.hist := grid_hist |}
           {| IoU.num_classes := 2; IoU.hist := [[2; 0]; [2; 4]] |}
           [(grid_pred, grid_target)] 1 0 H1 H2); simpl; lia.
Defined.

(** X3.  [reset] after any run of [add] calls gives back the freshly
    constructed accumulator, and a second [reset] changes nothing. *)
Theorem reset_restores_fresh (self s : IoU.t) (bs : list (tensor * tensor)) :
  has_shape (IoU.num_classes self) (IoU.num_classes self) (IoU.hist self) ->
  IoU.add_all self bs = Ok s ->
  IoU.reset s = IoU.__init__ (IoU.num_classes self) /\
  IoU.reset (IoU.reset s) = IoU.reset s.
Proof.
  intros Hs H. destruct (add_all_state self s bs Hs H) as [t [Ht ->]].
  split; reflexivity.
Qed.

Lemma reset_restores_fresh_witness :
  has_shape 2 2 (IoU.hist (IoU.__init__ 2)) /\
  IoU.add_all (IoU.__init__ 2) [(grid_pred, grid_target)]
  = Ok {| IoU.num_classes := 2; IoU.hist := grid_hist |} /\
  IoU.reset {| IoU.num_classes := 2; IoU.hist := grid_hist |} = IoU.__init__ 2.
Proof.
  assert (H1 : has_shape 2 2 (IoU.hist (IoU.__init__ 2))) by apply has_shape_zeros.
  assert (H2 : IoU.add_all (IoU.__init__ 2) [(grid_pred, grid_target)]
               = Ok {| IoU.num_classes := 2; IoU.hist := grid_hist |})
    by reflexivity.
  split; [exact H1|]. split; [exact H2|].
  exact (proj1 (reset_restores_fresh _ _ _ H1 H2)).
Defined.

(** ** Sums of counts *)


Lemma vsum_map_add {A : Type} (f g : A -> Z) (l : list A) :
  vsum (map (fun k => f k + g k) l) = vsum (map f l) + vsum (map g l).
Proof. induction l as [|x l IH]; simpl; [reflexivity | rewrite IH; lia]. Qed.

Lemma vsum_map_zero {A : Type} (f : A -> Z) (l : list A) :
  (forall x, In x l -> f x = 0) -> vsum (map f l) = 0.
Proof.
  induction l as [|x l IH]; intros H; simpl; [reflexivity|].
  rewrite (H x) by now left. rewrite IH; [reflexivity|].
  intros y Hy. apply H. now right.
Qed.

Section CountSums.

Context {A : Type} (eq_dec : forall x y : A, {x = y} + {x <> y}).

Lemma sum_indicator (p : A) (keys : list A) :
  NoDup keys ->
  vsum (map (fun k => if eq_dec p k then 1 else 0) keys)
  = if among eq_dec keys p then 1 else 0.
Proof.
  unfold among. induction 1 as [|k keys Hk Hnd IH]; simpl; [reflexivity|].
  rewrite IH. destruct (eq_dec k p) as [->|Hne].
  - destruct (eq_dec p p); [|contradiction].
    destruct (in_dec eq_dec p keys); [contradiction | reflexivity].
  - destruct (eq_dec p k) as [->|_]; [contradiction|].
    destruct (in_dec eq_dec p keys); reflexivity.
Qed.

Lemma sum_counts (L keys : list A) :
  NoDup keys ->
  vsum (map (fun k => Z.of_nat (count_occ eq_dec L k)) keys)
  = Z.of_nat (length (filter (among eq_dec keys) L)).
Proof.
  intros Hnd. induction L as [|p L IH].
  - simpl. apply vsum_map_zero. reflexivity.
  - rewrite (map_ext _ (fun k => (if eq_dec p k then 1 else 0)
                                 + Z.of_nat (count_occ eq_dec L k))).
    + rewrite vsum_map_add, IH, (sum_indicator p keys Hnd). simpl.
      destruct (among eq_dec keys p); simpl length; lia.
    + intros k. simpl. destruct (eq_dec p k); lia.
Qed.

End CountSums.


Lemma NoDup_map_injective {A B : Type} (f : A -> B) (l : list A) :
  (forall x y, f x = f y -> x = y) -> NoDup l -> NoDup (map f l).
Proof.
  intros Hf Hl. apply NoDup_map_NoDup_ForallPairs; [|exact Hl].
  intros x y _ _. apply Hf.
Qed.








(** ** Row and column sums *)

Lemma list_as_nth (l : vector) :
  l = map (fun j => nth j l 0) (seq 0 (length l)).
Proof.
  apply (nth_ext _ _ 0 0); [now rewrite length_map, length_seq|].
  intros j Hj. now rewrite nth_map_seq.
Qed.

Lemma row_as_entries (n : nat) (h : matrix) (i : nat) :
  has_shape n n h -> (i < n)%nat ->
  nth i h [] = map (fun j => entry h i j) (seq 0 n).
Proof.
  intros Hh Hi. rewrite (list_as_nth (nth i h [])) at 1.
  now rewrite (has_shape_row n n h i Hh Hi).
Qed.

Lemma column_as_entries (n : nat) (h : matrix) (j : nat) :
  has_shape n n h -> column h j = map (fun i => entry h i j) (seq 0 n).
Proof.
  intros [Hr _]. unfold column, entry.
  apply (nth_ext _ _ 0 0); [now rewrite !length_map, length_seq|].
  intros i Hi. rewrite length_map in Hi.
  rewrite (nth_map_lt _ _ _ []) by exact Hi.
  rewrite nth_map_seq by lia. reflexivity.
Qed.

Lemma among_row (n i : nat) (p : Z * Z) :
  among pair_eq_dec (map (fun j => (Z.of_nat i, Z.of_nat j)) (seq 0 n)) p
  = (fst p =? Z.of_nat i) && ((0 <=? snd p) && (snd p <? Z.of_nat n)).
Proof.
  unfold among. destruct p as [t q]. cbn [fst snd].
  destruct (in_dec _ _ _) as [Hin|Hn].
  - apply in_map_iff in Hin. destruct Hin as [j [E Hj]]. apply in_seq in Hj.
    injection E as <- <-. symmetry.
    rewrite !andb_true_iff, Z.eqb_eq, Z.leb_le, Z.ltb_lt. lia.
  - symmetry. apply not_true_is_false. intros H. apply Hn.
    rewrite !andb_true_iff, Z.eqb_eq, Z.leb_le, Z.ltb_lt in H.
    destruct H as [-> [H0 H1]].
    apply in_map_iff. exists (Z.to_nat q). split.
    + f_equal. lia.
    + apply in_seq. lia.
Qed.

Lemma among_column (n j : nat) (p : Z * Z) :
  among pair_eq_dec (map (fun i => (Z.of_nat i, Z.of_nat j)) (seq 0 n)) p
  = in_range n (fst p) && (snd p =? Z.of_nat j).
Proof.
  unfold among, in_range. destruct p as [t q]. cbn [fst snd].
  destruct (in_dec _ _ _) as [Hin|Hn].
  - apply in_map_iff in Hin. destruct Hin as [i [E Hi]]. apply in_seq in Hi.
    injection E as <- <-. symmetry.
    rewrite !andb_true_iff, Z.eqb_eq, Z.leb_le, Z.ltb_lt. lia.
  - symmetry. apply not_true_is_false. intros H. apply Hn.
    rewrite !andb_true_iff, Z.eqb_eq, Z.leb_le, Z.ltb_lt in H.
    destruct H as [[H0 H1] ->].
    apply in_map_iff. exists (Z.to_nat t). split.
    + f_equal. lia.
    + apply in_seq. lia.
Qed.

Lemma length_filter_count (f : Z * Z -> Z) (L : list (Z * Z)) (v : Z) :
  length (filter (fun p => f p =? v) L) = count_occ Z.eq_dec (map f L) v.
Proof.
  induction L as [|p L IH]; simpl; [reflexivity|].
  destruct (Z.eqb_spec (f p) v) as [E|E]; destruct (Z.eq_dec (f p) v);
    try contradiction; simpl; now rewrite IH.
Qed.

Lemma map_fst_combine (a b : list Z) :
  length b = length a -> map fst (combine a b) = a.
Proof.
  revert b. induction a as [|x a IH]; intros [|y b] H; simpl in *;
    try discriminate; [reflexivity|].
  now rewrite IH by lia.
Qed.

Lemma pairs_row (n : nat) (i : nat) :
  NoDup (map (fun j => (Z.of_nat i, Z.of_nat j)) (seq 0 n)).
Proof.
  apply NoDup_map_injective; [|apply seq_NoDup].
  intros x y E. injection E as E. now apply Nat2Z.inj.
Qed.

Lemma pairs_column (n : nat) (j : nat) :
  NoDup (map (fun i => (Z.of_nat i, Z.of_nat j)) (seq 0 n)).
Proof.
  apply NoDup_map_injective; [|apply seq_NoDup].
  intros x y E. injection E as E. now apply Nat2Z.inj.
Qed.

(** Sum over a row of the pair counts. *)
Lemma sum_pair_count_row (n : nat) (a b : list Z) (i : nat) :
  length b = length a ->
  Forall (fun q => 0 <= snd q < Z.of_nat n) (kept n a b) ->
  (i < n)%nat ->
  vsum (map (fun j => pair_count a b i j) (seq 0 n))
  = Z.of_nat (count_occ Z.eq_dec a (Z.of_nat i)).
Proof.
  intros Hlen Hr Hi. unfold pair_count.
  rewrite <- (map_map (fun j => (Z.of_nat i, Z.of_nat j))
                      (fun k => Z.of_nat (count_occ pair_eq_dec (combine a b) k))).
  rewrite (sum_counts pair_eq_dec) by apply pairs_row. f_equal.
  rewrite (filter_ext_in _ (fun p => fst p =? Z.of_nat i)).
  - now rewrite length_filter_count, map_fst_combine.
  - intros p Hp. rewrite among_row.
    destruct (Z.eqb_spec (fst p) (Z.of_nat i)) as [E|E]; [|reflexivity].
    cbn [andb]. rewrite Forall_forall in Hr.
    assert (Hk : In p (kept n a b)).
    { unfold kept. apply filter_In. split; [exact Hp|]. apply in_range_spec. lia. }
    specialize (Hr p Hk). apply andb_true_iff.
    rewrite Z.leb_le, Z.ltb_lt. exact Hr.
Qed.

(** Sum over a column of the pair counts. *)
Lemma sum_pair_count_column (n : nat) (a b : list Z) (j : nat) :
  vsum (map (fun i => pair_count a b i j) (seq 0 n))
  = Z.of_nat (count_occ Z.eq_dec (map snd (kept n a b)) (Z.of_nat j)).
Proof.
  unfold pair_count.
  rewrite <- (map_map (fun i => (Z.of_nat i, Z.of_nat j))
                      (fun k => Z.of_nat (count_occ pair_eq_dec (combine a b) k))).
  rewrite (sum_counts pair_eq_dec) by apply pairs_column. f_equal.
  rewrite <- length_filter_count. unfold kept.
  induction (combine a b) as [|p L IH]; [reflexivity|].
  cbn [filter]. rewrite among_column.
  destruct (in_range n (fst p)); cbn [andb filter].
  - destruct (snd p =? Z.of_nat j); cbn [length]; now rewrite IH.
  - exact IH.
Qed.

(** X5.  When the predicted labels at the kept positions are among the N
    classes, row [i] of the table of [fast_hist] sums to the number of pixels
    whose true label is [i], and column [i] to the number of kept pixels
    predicted as [i]. *)
Theorem fast_hist_marginals (a b : list Z) (n : nat) (h : matrix) (i : nat) :
  length b = length a ->
  Forall (fun q => 0 <= snd q < Z.of_nat n) (kept n a b) ->
  IoU.fast_hist a b n = Ok h ->
  (i < n)%nat ->
  vsum (nth i h []) = Z.of_nat (count_occ Z.eq_dec a (Z.of_nat i)) /\
  vsum (column h i)
  = Z.of_nat (count_occ Z.eq_dec (map snd (kept n a b)) (Z.of_nat i)).
Proof.
  intros Hlen Hr Hh Hi.
  destruct (fast_hist_counts a b n Hlen Hr) as [bins [h' [_ [_ [Hh' [Hs He]]]]]].
  rewrite Hh in Hh'. injection Hh' as <-.
  split.
  - rewrite (row_as_entries n h i Hs Hi).
    rewrite (map_ext_in _ (fun j => pair_count a b i j))
      by (intros j Hj; apply in_seq in Hj; apply He; lia).
    now apply sum_pair_count_row.
  - rewrite (column_as_entries n h i Hs).
    rewrite (map_ext_in _ (fun k => pair_count a b k i))
      by (intros k Hk; apply in_seq in Hk; apply He; lia).
    apply sum_pair_count_column.
Qed.

Lemma fast_hist_marginals_witness :
  length [0; 1; 1; 0] = length [0; 1; 1; 1] /\
  Forall (fun q => 0 <= snd q < Z.of_nat 2) (kept 2 [0; 1; 1; 1] [0; 1; 1; 0]) /\
  IoU.fast_hist [0; 1; 1; 1] [0; 1; 1; 0] 2 = Ok grid_hist /\
  vsum (nth 1 grid_hist []) = 3 /\ vsum (column grid_hist 1) = 2.
Proof.
  assert (H1 : length [0; 1; 1; 0] = length [0; 1; 1; 1]) by reflexivity.
  assert (H2 : Forall (fun q => 0 <= snd q < Z.of_nat 2)
                      (kept 2 [0; 1; 1; 1] [0; 1; 1; 0]))
    by (simpl; repeat constructor; simpl; lia).
  assert (H3 : IoU.fast_hist [0; 1; 1; 1] [0; 1; 1; 0] 2 = Ok grid_hist)
    by reflexivity.
  destruct (fast_hist_marginals _ _ _ _ 1%nat H1 H2 H3 ltac:(lia)) as [Hrow Hcol].
  exact (conj H1 (conj H2 (conj H3 (conj Hrow Hcol)))).
Defined.

(** ** Perfect predictions *)








(** ** Bounds on the statistics *)

Lemma true_divide_unit (x d : Z) : 0 <= x <= d -> 0 < d -> in_unit (true_divide x d).
Proof.
  intros Hx Hd. unfold true_divide, fdiv, in_unit.
  destruct (Z.eqb_spec d 0); [lia|].
  rewrite Qred_correct.
  assert (Hd' : (0 < inject_Z d)%Q) by (change 0%Q with (inject_Z 0); now rewrite <- Zlt_Qlt).
  split.
  - apply Qle_shift_div_l; [exact Hd'|]. rewrite Qmult_0_l.
    change 0%Q with (inject_Z 0). rewrite <- Zle_Qle. lia.
  - apply Qle_shift_div_r; [exact Hd'|]. rewrite Qmult_1_l.
    rewrite <- Zle_Qle. lia.
Qed.

Lemma nth_le_vsum (row : vector) (j : nat) :
  Forall (fun x => 0 <= x) row -> nth j row 0 <= vsum row.
Proof.
  intros H. revert j. induction H as [|x row Hx Hrow IH]; intros [|j]; simpl;
    try lia.
  - pose proof (vsum_nonneg row Hrow). lia.
  - specialize (IH j). lia.
Qed.

Lemma nonneg_row (M : matrix) (i : nat) :
  nonneg M -> Forall (fun x => 0 <= x) (nth i M []).
Proof.
  intros HM. destruct (Nat.ltb_spec i (length M)) as [Hi|Hi].
  - unfold nonneg in HM. rewrite Forall_forall in HM. apply HM, nth_In, Hi.
  - rewrite nth_overflow by exact Hi. constructor.
Qed.

Lemma nonneg_column (M : matrix) (j : nat) :
  nonneg M -> Forall (fun x => 0 <= x) (column M j).
Proof.
  intros HM. unfold column. apply Forall_forall. intros x Hx.
  apply in_map_iff in Hx. destruct Hx as [row [<- Hrow]].
  destruct (In_nth M row [] Hrow) as [i [_ <-]].
  apply (nonneg_entry M i j HM).
Qed.

Lemma diag_le_row (M : matrix) (c : nat) :
  nonneg M -> entry M c c <= vsum (nth c M []).
Proof. intros HM. apply nth_le_vsum, nonneg_row, HM. Qed.

Lemma diag_le_column (M : matrix) (c : nat) :
  nonneg M -> (c < length M)%nat -> entry M c c <= vsum (column M c).
Proof.
  intros HM Hc.
  replace (entry M c c) with (nth c (column M c) 0).
  - apply nth_le_vsum, nonneg_column, HM.
  - unfold column, entry.
    now rewrite (nth_map_lt (fun r => nth c r 0) M c [] 0 Hc).
Qed.

Lemma fsum_unit (xs : list npfloat) :
  Forall in_unit xs ->
  exists s, fsum xs = Fin s /\ (0 <= s <= inject_Z (Z.of_nat (length xs)))%Q.
Proof.
  induction 1 as [|x xs Hx _ [s [Hs Hb]]].
  - exists 0%Q. split; [reflexivity|]. simpl. split; apply Qle_refl.
  - destruct x as [| | |q]; try contradiction. simpl in Hx.
    change (fsum (Fin q :: xs)) with (fadd (Fin q) (fsum xs)). rewrite Hs.
    exists (Qred (q + s)). split; [reflexivity|].
    rewrite Qred_correct. cbn [length]. rewrite Nat2Z.inj_succ.
    unfold Z.succ. rewrite inject_Z_plus, Qplus_comm.
    split.
    + change 0%Q with (0 + 0)%Q. apply Qplus_le_compat; tauto.
    + apply Qplus_le_compat; tauto.
Qed.

Lemma replace_nan_unit (xs : list npfloat) :
  Forall in_unit xs -> replace_nan xs = xs /\ count_not_nan xs = length xs.
Proof.
  unfold replace_nan, count_not_nan.
  induction 1 as [|x xs Hx _ [IH1 IH2]]; [split; reflexivity|].
  destruct x; try contradiction. simpl. rewrite IH1, IH2. split; reflexivity.
Qed.

(** The mean of a non-empty vector of values in [0, 1] lies in [0, 1]. *)
Lemma nanmean_unit (xs : list npfloat) :
  Forall in_unit xs -> xs <> [] -> in_unit (nanmean xs).
Proof.
  intros H Hne. unfold nanmean.
  destruct (replace_nan_unit xs H) as [-> ->].
  destruct (fsum_unit xs H) as [s [-> [Hs0 Hs1]]].
  assert (Hlen : 0 < Z.of_nat (length xs)) by (destruct xs; [contradiction | simpl; lia]).
  unfold fdiv, in_unit. destruct (Z.eqb_spec (Z.of_nat (length xs)) 0); [lia|].
  rewrite Qred_correct.
  assert (Hd : (0 < inject_Z (Z.of_nat (length xs)))%Q)
    by (change 0%Q with (inject_Z 0); now rewrite <- Zlt_Qlt).
  split.
  - apply Qle_shift_div_l; [exact Hd|]. now rewrite Qmult_0_l.
  - apply Qle_shift_div_r; [exact Hd|]. now rewrite Qmult_1_l.
Qed.

(** X7.  On a square matrix of counts every entry that the second
    [value()] derives is a number between 0 and 1: each per-class IoU, each
    per-class accuracy, and, with at least two classes, the mean IoU. *)
Theorem statistics_lie_in_unit_interval (n : nat) (M : matrix) :
  has_shape n n M ->
  nonneg M ->
  Forall in_unit (fst (IoU.per_class_iu M)) /\
  Forall in_unit (IoU.per_class_PA M) /\
  ((2 <= n)%nat ->
   in_unit (snd (fst (IoU.value {| IoU.num_classes := n; IoU.hist := M |})))).
Proof.
  intros Hs Hn. assert (Hr : length M = n) by apply Hs.
  assert (Hiu : Forall in_unit (fst (IoU.per_class_iu M))).
  { apply Forall_nth. intros k d Hk.
    rewrite (length_per_class_iu n M Hs) in Hk.
    rewrite (nth_indep _ d NaN) by (rewrite (length_per_class_iu n M Hs); exact Hk).
    replace k with (S k - 1)%nat by lia.
    rewrite (nth_per_class_iu n M (S k) Hs) by lia.
    pose proof (diag_le_row M (S k) Hn).
    pose proof (diag_le_column M (S k) Hn ltac:(lia)).
    pose proof (nonneg_entry M (S k) (S k) Hn).
    apply true_divide_unit; lia. }
  split; [exact Hiu|]. split.
  - apply Forall_nth. intros k d Hk. rewrite length_per_class_PA in Hk.
    rewrite (nth_indep _ d NaN) by (rewrite length_per_class_PA; exact Hk).
    rewrite nth_per_class_PA by exact Hk.
    pose proof (diag_le_row M k Hn). pose proof (nonneg_entry M k k Hn).
    apply true_divide_unit; lia.
  - intros H2.
    change (snd (fst (IoU.value {| IoU.num_classes := n; IoU.hist := M |})))
      with (nanmean (fst (IoU.per_class_iu M))).
    apply nanmean_unit; [exact Hiu|].
    intros E. pose proof (length_per_class_iu n M Hs) as Hl.
    rewrite E in Hl. simpl in Hl. lia.
Qed.

Lemma statistics_lie_in_unit_interval_witness :
  has_shape 2 2 grid_hist /\ nonneg grid_hist /\ (2 <= 2)%nat /\
  Forall in_unit (fst (IoU.per_class_iu grid_hist)) /\
  Forall in_unit (IoU.per_class_PA grid_hist) /\
  in_unit (snd (fst (IoU.value {| IoU.num_classes := 2; IoU.hist := grid_hist |}))).
Proof.
  assert (H1 : has_shape 2 2 grid_hist) by (split; [reflexivity | repeat constructor]).
  assert (H2 : nonneg grid_hist) by (repeat constructor; lia).
  destruct (statistics_lie_in_unit_interval 2 grid_hist H1 H2) as [Ha [Hb Hc]].
  exact (conj H1 (conj H2 (conj (le_n 2) (conj Ha (conj Hb (Hc (le_n 2))))))).
Defined.

(** ** The two derivations of the IoU compared *)

Lemma iou_denominator (M : matrix) (c : nat) :
  nonneg M -> (c < length M)%nat ->
  0 <= entry M c c
       <= entry M c c + (vsum (column M c) - entry M c c)
          + (vsum (nth c M []) - entry M c c).
Proof.
  intros HM Hc. pose proof (diag_le_row M c HM).
  pose proof (diag_le_column M c HM Hc). pose proof (nonneg_entry M c c HM). lia.
Qed.

(** X8.  On a square matrix of counts the quotient tp/(tp+fp+fn) of the
    first [value()] is NaN exactly for the classes that occur neither as
    target nor as prediction (zero row sum and zero column sum); for every
    other class it is a number between 0 and 1, never an infinity. *)
Theorem first_iou_is_nan_iff_class_absent (n : nat) (M : matrix) (c : nat) :
  has_shape n n M ->
  nonneg M ->
  (c < n)%nat ->
  (nth c (MetricIoU.iou M) NaN = NaN
   <-> vsum (nth c M []) = 0 /\ vsum (column M c) = 0) /\
  (nth c (MetricIoU.iou M) NaN <> NaN -> in_unit (nth c (MetricIoU.iou M) NaN)).
Proof.
  intros Hs Hn Hc. assert (Hr : length M = n) by apply Hs.
  rewrite (nth_iou n M c Hs Hc).
  pose proof (iou_denominator M c Hn ltac:(lia)) as Hd.
  pose proof (diag_le_row M c Hn) as Hrow.
  pose proof (diag_le_column M c Hn ltac:(lia)) as Hcol.
  generalize dependent (entry M c c). intros x Hd Hrow Hcol.
  generalize dependent (vsum (nth c M [])). intros row Hd Hrow.
  generalize dependent (vsum (column M c)). intros col Hd Hcol.
  destruct (Z.eq_dec (x + (col - x) + (row - x)) 0) as [E|E].
  - rewrite E. assert (x = 0) by lia. subst x.
    split; [|intros Hne; now contradiction Hne].
    split; [intros _; lia | reflexivity].
  - assert (Hu : in_unit (true_divide x (x + (col - x) + (row - x))))
      by (apply true_divide_unit; lia).
    split; [|intros _; exact Hu].
    split.
    + intros Hnan. rewrite Hnan in Hu. contradiction.
    + intros [H1 H2]. exfalso. apply E. lia.
Qed.

Lemma first_iou_is_nan_iff_class_absent_witness :
  has_shape 2 2 one_class_seen /\ nonneg one_class_seen /\ (1 < 2)%nat /\
  vsum (nth 1 one_class_seen []) = 0 /\ vsum (column one_class_seen 1) = 0 /\
  nth 1 (MetricIoU.iou one_class_seen) NaN = NaN.
Proof.
  assert (H1 : has_shape 2 2 one_class_seen)
    by (split; [reflexivity | repeat constructor]).
  assert (H2 : nonneg one_class_seen) by (repeat constructor; lia).
  assert (H3 : (1 < 2)%nat) by lia.
  destruct (first_iou_is_nan_iff_class_absent 2 one_class_seen 1 H1 H2 H3)
    as [[_ Hback] _].
  exact (conj H1 (conj H2 (conj H3 (conj eq_refl (conj eq_refl
           (Hback (conj eq_refl eq_refl))))))).
Defined.

Lemma floor_replaces_nan (x d : Z) :
  0 <= x <= d ->
  true_divide x (Z.max d 1)
  = (if is_nan (true_divide x d) then Fin 0 else true_divide x d).
Proof.
  intros H. destruct (Z.eq_dec d 0) as [->|Hd].
  - assert (x = 0) by lia. subst x. reflexivity.
  - replace (Z.max d 1) with d by lia.
    unfold true_divide, fdiv. destruct (Z.eqb_spec d 0); [contradiction|].
    reflexivity.
Qed.

(** X9.  On a square matrix of counts the IoU vector of the second
    [value()] is that of the first one with every NaN replaced by 0 and the
    entry of class 0 dropped. *)
Theorem per_class_iu_is_first_iou_floored (n : nat) (M : matrix) :
  has_shape n n M ->
  nonneg M ->
  fst (IoU.per_class_iu M) = from1 (replace_nan (MetricIoU.iou M)).
Proof.
  intros Hs Hn. assert (Hr : length M = n) by apply Hs.
  apply (nth_ext _ _ NaN NaN).
  - unfold from1, replace_nan.
    now rewrite (length_per_class_iu n M Hs), length_tl, length_map,
      (length_iou n M Hs).
  - intros k Hk. rewrite (length_per_class_iu n M Hs) in Hk.
    replace k with (S k - 1)%nat at 1 by lia.
    rewrite (nth_per_class_iu n M (S k) Hs) by lia.
    unfold from1, replace_nan. rewrite nth_tl.
    rewrite (nth_map_lt _ _ _ NaN) by (rewrite (length_iou n M Hs); lia).
    rewrite (nth_iou n M (S k) Hs) by lia.
    pose proof (iou_denominator M (S k) Hn ltac:(lia)) as Hd.
    rewrite <- floor_replaces_nan by exact Hd.
    f_equal. lia.
Qed.

Lemma per_class_iu_is_first_iou_floored_witness :
  has_shape 2 2 one_class_seen /\ nonneg one_class_seen /\
  MetricIoU.iou one_class_seen = [Fin 1; NaN] /\
  fst (IoU.per_class_iu one_class_seen) = [Fin 0].
Proof.
  assert (H1 : has_shape 2 2 one_class_seen)
    by (split; [reflexivity | repeat constructor]).
  assert (H2 : nonneg one_class_seen) by (repeat constructor; lia).
  split; [exact H1|]. split; [exact H2|]. split; [reflexivity|].
  rewrite (per_class_iu_is_first_iou_floored 2 one_class_seen H1 H2).
  reflexivity.
Defined.

(** ** Ignored classes in general *)

Lemma nth_map_combine_seq {A B : Type} (g : nat * A -> B) (l : list A)
      (k : nat) (d : A) (d' : B) :
  (k < length l)%nat ->
  nth k (map g (combine (seq 0 (length l)) l)) d' = g (k, nth k l d).
Proof.
  intros Hk.
  rewrite (nth_map_lt g _ k (O, d))
    by (rewrite length_combine, length_seq; lia).
  rewrite combine_nth by apply length_seq.
  now rewrite seq_nth by exact Hk.
Qed.

Lemma zero_columns_spec (n : nat) (M : matrix) (idx : list Z) (js : list nat) :
  has_shape n n M ->
  MetricIoU.norm_indices n idx = Ok js ->
  exists M1,
    MetricIoU.zero_columns M idx = Ok M1 /\
    has_shape n n M1 /\
    forall i j, (i < n)%nat -> (j < n)%nat ->
      entry M1 i j = if MetricIoU.mem j js then 0 else entry M i j.
Proof.
  intros Hs Hjs. unfold MetricIoU.zero_columns.
  rewrite (ncols_square n M Hs), Hjs. cbn [bind].
  eexists. split; [reflexivity|]. destruct Hs as [Hr Hc]. split; [split|].
  - now rewrite length_map.
  - apply Forall_forall. intros row Hrow. apply in_map_iff in Hrow.
    destruct Hrow as [r [<- Hin]]. rewrite Forall_forall in Hc.
    rewrite length_map, length_combine, length_seq, (Hc r Hin). lia.
  - intros i j Hi Hj. unfold entry.
    rewrite (nth_map_lt _ M i []) by lia.
    assert (Hl : length (nth i M []) = n).
    { rewrite Forall_forall in Hc. apply Hc, nth_In. lia. }
    rewrite (nth_map_combine_seq _ _ j 0) by lia. reflexivity.
Qed.

Lemma zero_rows_spec (n : nat) (M : matrix) (idx : list Z) (js : list nat) :
  has_shape n n M ->
  MetricIoU.norm_indices n idx = Ok js ->
  exists M1,
    MetricIoU.zero_rows M idx = Ok M1 /\
    has_shape n n M1 /\
    forall i j, (i < n)%nat -> (j < n)%nat ->
      entry M1 i j = if MetricIoU.mem i js then 0 else entry M i j.
Proof.
  intros Hs Hjs. unfold MetricIoU.zero_rows. destruct Hs as [Hr Hc].
  replace (MetricIoU.norm_indices (length M) idx) with (Ok js)
    by (rewrite Hr; now symmetry).
  cbn [bind].
  eexists. split; [reflexivity|]. split; [split|].
  - rewrite length_map, length_combine, length_seq, Nat.min_id. exact Hr.
  - apply Forall_forall. intros row Hrow. apply in_map_iff in Hrow.
    destruct Hrow as [[k r] [<- Hin]]. cbn [fst snd].
    apply in_combine_r in Hin. rewrite Forall_forall in Hc.
    destruct (MetricIoU.mem k js); [rewrite repeat_length|]; now rewrite (Hc r Hin).
  - intros i j Hi Hj. unfold entry.
    rewrite (nth_map_combine_seq _ M i []) by lia. cbn [fst snd].
    destruct (MetricIoU.mem i js); [|reflexivity].
    apply nth_repeat_lt.
    assert (Hl : length (nth i M []) = n).
    { rewrite Forall_forall in Hc. apply Hc, nth_In. lia. }
    lia.
Qed.

(** X10.  For any N by N matrix and any tuple of ignore indices that
    are valid numpy indices, the matrix the first [value()] derives from
    has every row and every column of an ignored class zeroed and all other
    cells unchanged, and the IoU of each ignored class is NaN. *)
Theorem ignore_zeroes_rows_and_columns
        (n : nat) (M : matrix) (idx : list Z) (js : list nat) :
  has_shape n n M ->
  MetricIoU.norm_indices n idx = Ok js ->
  exists M',
    MetricIoU.apply_ignore (Some idx) M = Ok M' /\
    has_shape n n M' /\
    (forall i j, (i < n)%nat -> (j < n)%nat ->
       entry M' i j
       = if MetricIoU.mem i js || MetricIoU.mem j js then 0 else entry M i j) /\
    MetricIoU.value_of (Some idx) M = Ok (MetricIoU.iou M', nanmean (MetricIoU.iou M')) /\
    (forall c, (c < n)%nat -> MetricIoU.mem c js = true ->
       nth c (MetricIoU.iou M') NaN = NaN).
Proof.
  intros Hs Hjs.
  destruct (zero_columns_spec n M idx js Hs Hjs) as [M1 [E1 [S1 H1]]].
  destruct (zero_rows_spec n M1 idx js S1 Hjs) as [M2 [E2 [S2 H2]]].
  assert (Hentry : forall i j, (i < n)%nat -> (j < n)%nat ->
            entry M2 i j
            = if MetricIoU.mem i js || MetricIoU.mem j js then 0 else entry M i j).
  { intros i j Hi Hj. rewrite H2, H1 by assumption.
    destruct (MetricIoU.mem i js), (MetricIoU.mem j js); reflexivity. }
  assert (Hignore : MetricIoU.apply_ignore (Some idx) M = Ok M2).
  { unfold MetricIoU.apply_ignore. rewrite E1. cbn [bind]. exact E2. }
  exists M2. split; [exact Hignore|]. split; [exact S2|]. split; [exact Hentry|].
  split.
  - unfold MetricIoU.value_of. rewrite Hignore. reflexivity.
  - intros c Hc Hm. rewrite (nth_iou n M2 c S2 Hc).
    assert (Hd : entry M2 c c = 0) by (rewrite Hentry, Hm by assumption; reflexivity).
    assert (Hrow : vsum (nth c M2 []) = 0).
    { rewrite (row_as_entries n M2 c S2 Hc). apply vsum_map_zero.
      intros j Hj. apply in_seq in Hj. rewrite Hentry, Hm by lia. reflexivity. }
    assert (Hcol : vsum (column M2 c) = 0).
    { rewrite (column_as_entries n M2 c S2). apply vsum_map_zero.
      intros i Hi. apply in_seq in Hi. rewrite Hentry, Hm by lia.
      now rewrite orb_true_r. }
    rewrite Hd, Hrow, Hcol. reflexivity.
Qed.

Lemma ignore_zeroes_rows_and_columns_witness :
  has_shape 2 2 grid_hist /\
  MetricIoU.norm_indices 2 [-1] = Ok [1%nat] /\
  exists M',
    MetricIoU.apply_ignore (Some [-1]) grid_hist = Ok M' /\
    entry M' 0 0 = 1 /\ entry M' 1 0 = 0 /\
    nth 1 (MetricIoU.iou M') NaN = NaN.
Proof.
  assert (H1 : has_shape 2 2 grid_hist) by (split; [reflexivity | repeat constructor]).
  assert (H2 : MetricIoU.norm_indices 2 [-1] = Ok [1%nat]) by reflexivity.
  split; [exact H1|]. split; [exact H2|].
  destruct (ignore_zeroes_rows_and_columns 2 grid_hist [-1] [1%nat] H1 H2)
    as [M' [Hi [_ [He [_ Hn]]]]].
  exists M'. split; [exact Hi|].
  split; [exact (He 0%nat 0%nat ltac:(lia) ltac:(lia))|].
  split; [exact (He 1%nat 0%nat ltac:(lia) ltac:(lia))|].
  exact (Hn 1%nat ltac:(lia) eq_refl).
Defined.




(** ** The rank reduction *)

Lemma argmax_from_spec (rest pre : list Z) (bi : nat) (b : Z) :
  (bi < length pre)%nat ->
  nth bi pre 0 = b ->
  (forall j, (j < length pre)%nat -> nth j pre 0 <= b) ->
  (forall j, (j < bi)%nat -> nth j pre 0 < b) ->
  (argmax_from bi b (length pre) rest < length (pre ++ rest))%nat /\
  (forall j, (j < length (pre ++ rest))%nat ->
     nth j (pre ++ rest) 0 <= nth (argmax_from bi b (length pre) rest) (pre ++ rest) 0) /\
  (forall j, (j < argmax_from bi b (length pre) rest)%nat ->
     nth j (pre ++ rest) 0 < nth (argmax_from bi b (length pre) rest) (pre ++ rest) 0).
Proof.
  revert pre bi b. induction rest as [|x rest IH]; intros pre bi b Hbi Hb Hmax Hfirst.
  - simpl. rewrite app_nil_r. rewrite Hb. repeat split; assumption.
  - replace (pre ++ x :: rest) with ((pre ++ [x]) ++ rest)
      by (rewrite <- app_assoc; reflexivity).
    assert (Hl : length (pre ++ [x]) = S (length pre))
      by (rewrite length_app; simpl; lia).
    assert (Hx : nth (length pre) (pre ++ [x]) 0 = x)
      by (rewrite app_nth2, Nat.sub_diag by lia; reflexivity).
    cbn [argmax_from]. rewrite <- Hl.
    destruct (Z.ltb_spec b x) as [Hlt|Hge].
    + apply IH.
      * lia.
      * exact Hx.
      * intros j Hj. destruct (Nat.eq_dec j (length pre)) as [->|Hne].
        -- rewrite Hx. lia.
        -- rewrite app_nth1 by lia. specialize (Hmax j ltac:(lia)). lia.
      * intros j Hj. rewrite app_nth1 by lia. specialize (Hmax j Hj). lia.
    + apply IH.
      * lia.
      * rewrite app_nth1 by lia. exact Hb.
      * intros j Hj. destruct (Nat.eq_dec j (length pre)) as [->|Hne].
        -- rewrite Hx. lia.
        -- rewrite app_nth1 by lia. apply Hmax. lia.
      * intros j Hj. rewrite app_nth1 by lia. now apply Hfirst.
Qed.

(** [argmax] returns the first index of a maximal entry. *)
Lemma argmax_spec (xs : list Z) :
  xs <> [] ->
  (argmax xs < length xs)%nat /\
  (forall j, (j < length xs)%nat -> nth j xs 0 <= nth (argmax xs) xs 0) /\
  (forall j, (j < argmax xs)%nat -> nth j xs 0 < nth (argmax xs) xs 0).
Proof.
  destruct xs as [|x rest]; [contradiction|]. intros _.
  apply (argmax_from_spec rest [x] 0 x); simpl.
  - lia.
  - reflexivity.
  - intros [|j] Hj; [lia | lia].
  - intros j Hj. lia.
Qed.

(** X12.  The class that [add] takes from a tensor of per-class scores
    is, for every pixel, a class whose score is maximal, the first one among
    ties, and one of the K classes of the tensor. *)
Theorem reduction_takes_first_maximal_class (k inner : nat) (block : list Z) (j : nat) :
  k <> O ->
  (j < inner)%nat ->
  exists c,
    nth j (argmax_planes k inner block) 0 = Z.of_nat c /\
    (c < k)%nat /\
    (forall c', (c' < k)%nat ->
       nth (c' * inner + j) block 0 <= nth (c * inner + j) block 0) /\
    (forall c', (c' < c)%nat ->
       nth (c' * inner + j) block 0 < nth (c * inner + j) block 0).
Proof.
  intros Hk Hj. unfold argmax_planes. rewrite nth_map_seq by exact Hj.
  set (scores := map (fun c => nth (c * inner + j) block 0) (seq 0 k)).
  assert (Hlen : length scores = k) by (unfold scores; now rewrite length_map, length_seq).
  assert (Hne : scores <> []) by (intros E; rewrite E in Hlen; simpl in Hlen; lia).
  destruct (argmax_spec scores Hne) as [Hlt [Hmax Hfirst]].
  rewrite Hlen in Hlt, Hmax.
  assert (Hs : forall c, (c < k)%nat -> nth c scores 0 = nth (c * inner + j) block 0)
    by (intros c Hc; unfold scores; now rewrite nth_map_seq).
  exists (argmax scores). split; [reflexivity|]. split; [exact Hlt|]. split.
  - intros c' Hc'. rewrite <- !Hs by assumption. now apply Hmax.
  - intros c' Hc'. rewrite <- !Hs by lia. now apply Hfirst.
Qed.

Lemma reduction_takes_first_maximal_class_witness :
  2%nat <> O /\ (1 < 2)%nat /\
  exists c,
    nth 1 (argmax_planes 2 2 (data two_scores)) 0 = Z.of_nat c /\ c = 1%nat.
Proof.
  split; [discriminate|]. split; [lia|].
  destruct (reduction_takes_first_maximal_class 2 2 (data two_scores) 1
              ltac:(discriminate) ltac:(lia)) as [c [Hc [Hlt _]]].
  exists c. split; [exact Hc|].
  vm_compute in Hc. destruct c as [|[|c]]; [discriminate | reflexivity | lia].
Defined.

Lemma length_concat_map {A B : Type} (f : A -> list B) (l : list A) (c : nat) :
  (forall x, length (f x) = c) -> length (concat (map f l)) = (length l * c)%nat.
Proof.
  intros Hf. induction l as [|x l IH]; simpl; [reflexivity|].
  now rewrite length_app, Hf, IH.
Qed.

Lemma Forall_concat_map {A B : Type} (P : B -> Prop) (f : A -> list B) (l : list A) :
  (forall x, Forall P (f x)) -> Forall P (concat (map f l)).
Proof.
  intros Hf. induction l as [|x l IH]; simpl; [constructor|].
  apply Forall_app. split; [apply Hf | exact IH].
Qed.

Lemma argmax_planes_range (k inner : nat) (block : list Z) :
  k <> O ->
  Forall (fun v => 0 <= v < Z.of_nat k) (argmax_planes k inner block).
Proof.
  intros Hk. unfold argmax_planes. apply Forall_forall. intros v Hv.
  apply in_map_iff in Hv. destruct Hv as [j [<- _]].
  set (scores := map (fun c => nth (c * inner + j) block 0) (seq 0 k)).
  assert (Hlen : length scores = k) by (unfold scores; now rewrite length_map, length_seq).
  assert (Hne : scores <> []) by (intros E; rewrite E in Hlen; simpl in Hlen; lia).
  destruct (argmax_spec scores Hne) as [Hlt _]. lia.
Qed.

(** The labels [max(1)] returns for a tensor of shape [(n, k, ...)]. *)
Lemma max1_labels (x y : tensor) (n k : nat) (rest : list nat) :
  shape x = n :: k :: rest ->
  max1 x = Ok y ->
  length (flatten y) = (n * numel rest)%nat /\
  Forall (fun v => 0 <= v < Z.of_nat k) (flatten y).
Proof.
  intros Hshape H. unfold max1 in H. rewrite Hshape in H.
  destruct (Nat.eqb_spec k 0) as [|Hk]; [discriminate|].
  injection H as <-. unfold flatten. cbn [data]. split.
  - rewrite (length_concat_map _ _ (numel rest)), chunks_length; [reflexivity|].
    intros block. unfold argmax_planes. now rewrite length_map, length_seq.
  - apply Forall_concat_map. intros block. now apply argmax_planes_range.
Qed.

(** X13.  A prediction given as per-class scores of shape (n, K, h, w)
    with [0 < K <= num_classes] can never make [add] fail: against any
    target of [n*h*w] labels the call returns and adds an N by N table. *)
Theorem add_accepts_every_score_tensor
        (self : IoU.t) (pred label l : tensor) (n k h w : nat) :
  has_shape (IoU.num_classes self) (IoU.num_classes self) (IoU.hist self) ->
  shape pred = [n; k; h; w]%nat ->
  k <> O ->
  (k <= IoU.num_classes self)%nat ->
  IoU.reduce label = Ok l ->
  length (flatten l) = (n * (h * w))%nat ->
  exists t,
    IoU.add self pred label
    = Ok ({| IoU.num_classes := IoU.num_classes self;
             IoU.hist := madd (IoU.hist self) t |}, []) /\
    has_shape (IoU.num_classes self) (IoU.num_classes self) t.
Proof.
  intros Hs Hshape Hk Hle Hl Hlen.
  assert (Hdim : dim pred = 4%nat) by (unfold dim; now rewrite Hshape).
  destruct (max1 pred) as [p|e] eqn:Hmax.
  2:{ unfold max1 in Hmax. rewrite Hshape in Hmax.
      destruct (Nat.eqb_spec k 0); [contradiction | discriminate]. }
  assert (Hp : IoU.reduce pred = Ok p)
    by (unfold IoU.reduce; rewrite Hdim; exact Hmax).
  destruct (max1_labels pred p n k [h; w]%nat Hshape Hmax) as [Hplen Hprange].
  assert (Hlen' : length (flatten l) = length (flatten p))
    by (rewrite Hplen, Hlen; simpl; lia).
  assert (Hr : Forall (fun q => 0 <= snd q < Z.of_nat (IoU.num_classes self))
                      (kept (IoU.num_classes self) (flatten l) (flatten p))).
  { apply Forall_forall. intros [t q] Hin. unfold kept in Hin.
    apply filter_In in Hin. destruct Hin as [Hin _].
    apply in_combine_r in Hin. rewrite Forall_forall in Hprange.
    specialize (Hprange q Hin). cbn [snd]. lia. }
  destruct (fast_hist_counts (flatten l) (flatten p) (IoU.num_classes self)
                             (eq_sym Hlen') Hr)
    as [bins [t [_ [_ [Hfh [Ht _]]]]]].
  exists t. split; [|exact Ht].
  rewrite (add_unfold self pred label p l Hp Hl Hlen'), Hfh. reflexivity.
Qed.

Lemma add_accepts_every_score_tensor_witness :
  has_shape 2 2 (IoU.hist (IoU.__init__ 2)) /\
  shape two_scores = [1; 2; 1; 2]%nat /\ 2%nat <> O /\ (2 <= 2)%nat /\
  IoU.reduce (pixels 1 1) = Ok (pixels 1 1) /\
  length (flatten (pixels 1 1)) = (1 * (1 * 2))%nat /\
  exists t,
    IoU.add (IoU.__init__ 2) two_scores (pixels 1 1)
    = Ok ({| IoU.num_classes := 2; IoU.hist := madd (zeros 2 2) t |}, []) /\
    has_shape 2 2 t.
Proof.
  assert (H1 : has_shape 2 2 (IoU.hist (IoU.__init__ 2))) by apply has_shape_zeros.
  split; [exact H1|]. split; [reflexivity|]. split; [discriminate|].
  split; [lia|]. split; [reflexivity|]. split; [reflexivity|].
  apply (add_accepts_every_score_tensor (IoU.__init__ 2) two_scores (pixels 1 1)
           (pixels 1 1) 1 2 1 2 H1 eq_refl);
    [discriminate | simpl; lia | reflexivity | reflexivity].
Defined.

(** ** When [fast_hist] returns *)




(** ** Batches without a labelled pixel *)

Lemma hist_of_no_bins (n : nat) : hist_of_bins n [] = zeros n n.
Proof.
  apply (matrix_ext n n).
  - apply has_shape_hist_of_bins.
  - apply has_shape_zeros.
  - intros i j Hi Hj. now rewrite entry_hist_of_bins, entry_zeros.
Qed.

Lemma kept_none (n : nat) (a b : list Z) :
  Forall (fun t => in_range n t = false) a -> kept n a b = [].
Proof.
  intros H. unfold kept. revert b.
  induction H as [|t a Ht _ IH]; intros [|p b]; simpl; try reflexivity.
  rewrite Ht. apply IH.
Qed.

(** X15.  A batch in which no true label is one of the N classes (every
    pixel carries a void label, or the batch has no pixel at all) leaves the
    accumulator exactly as it was, without a diagnostic, whatever the
    predicted labels are. *)
Theorem add_of_unlabelled_batch_changes_nothing
        (self : IoU.t) (pred label p l : tensor) :
  has_shape (IoU.num_classes self) (IoU.num_classes self) (IoU.hist self) ->
  IoU.reduce pred = Ok p ->
  IoU.reduce label = Ok l ->
  length (flatten l) = length (flatten p) ->
  Forall (fun t => in_range (IoU.num_classes self) t = false) (flatten l) ->
  IoU.add self pred label = Ok (self, []).
Proof.
  intros Hs Hp Hl Hlen Hvoid.
  rewrite (add_unfold self pred label p l Hp Hl Hlen).
  rewrite fast_hist_eq by now symmetry.
  rewrite (kept_none _ _ _ Hvoid). cbn [map bins_ok forallb bind].
  rewrite hist_of_no_bins, madd_zeros_r by exact Hs. now destruct self.
Qed.

Lemma add_of_unlabelled_batch_changes_nothing_witness :
  has_shape 2 2 grid_hist /\
  IoU.reduce (pixels 7 (-3)) = Ok (pixels 7 (-3)) /\
  IoU.reduce (pixels 255 (-1)) = Ok (pixels 255 (-1)) /\
  length (flatten (pixels 255 (-1))) = length (flatten (pixels 7 (-3))) /\
  Forall (fun t => in_range 2 t = false) (flatten (pixels 255 (-1))) /\
  IoU.add {| IoU.num_classes := 2; IoU.hist := grid_hist |}
          (pixels 7 (-3)) (pixels 255 (-1))
  = Ok ({| IoU.num_classes := 2; IoU.hist := grid_hist |}, []).
Proof.
  assert (H1 : has_shape 2 2 grid_hist) by (split; [reflexivity | repeat constructor]).
  assert (H2 : Forall (fun t => in_range 2 t = false) (flatten (pixels 255 (-1))))
    by (repeat constructor).
  split; [exact H1|]. split; [reflexivity|]. split; [reflexivity|].
  split; [reflexivity|]. split; [exact H2|].
  exact (add_of_unlabelled_batch_changes_nothing
           {| IoU.num_classes := 2; IoU.hist := grid_hist |}
           (pixels 7 (-3)) (pixels 255 (-1)) (pixels 7 (-3)) (pixels 255 (-1))
           H1 eq_refl eq_refl eq_refl H2).
Defined.

(** ** The matrix after a run of batches *)

Lemma update_countable (n : nat) (b : tensor * tensor) :
  countable n b ->
  exists h,
    update n b = Ok h /\ has_shape n n h /\
    forall i j, (i < n)%nat -> (j < n)%nat -> entry h i j = batch_count b i j.
Proof.
  intros [p [l [Hp [Hl [Hlen Hr]]]]].
  destruct (fast_hist_counts (flatten l) (flatten p) n (eq_sym Hlen) Hr)
    as [bins [h [_ [_ [Hfh [Hs He]]]]]].
  exists h. split; [|split; [exact Hs|]].
  - unfold update. rewrite Hp, Hl. cbn [bind]. rewrite Hlen, Nat.eqb_refl.
    exact Hfh.
  - intros i j Hi Hj. unfold batch_count. rewrite Hp, Hl. now apply He.
Qed.

Lemma total_countable (n : nat) (bs : list (tensor * tensor)) :
  Forall (countable n) bs ->
  exists t,
    total n bs = Ok t /\ has_shape n n t /\
    forall i j, (i < n)%nat -> (j < n)%nat -> entry t i j = batches_count bs i j.
Proof.
  induction 1 as [|b bs Hb _ [t [Ht [Hs He]]]].
  - exists (zeros n n). split; [reflexivity|]. split; [apply has_shape_zeros|].
    intros i j _ _. apply entry_zeros.
  - destruct (update_countable n b Hb) as [h [Hh [Hhs Hhe]]].
    exists (madd h t). split; [|split].
    + simpl. rewrite Hh, Ht. reflexivity.
    + now apply has_shape_madd.
    + intros i j Hi Hj. rewrite (entry_madd n n) by assumption.
      rewrite Hhe, He by assumption. reflexivity.
Qed.

(** X16.  After any run of [add] calls on a fresh accumulator with
    batches that are counted in full, cell [(i, j)] of the matrix is the
    number of pixels, over all the batches, with true label [i] and predicted
    label [j]. *)
Theorem matrix_counts_pixels_of_all_batches
        (N : nat) (bs : list (tensor * tensor)) :
  Forall (countable N) bs ->
  exists s,
    IoU.add_all (IoU.__init__ N) bs = Ok s /\
    IoU.num_classes s = N /\
    forall i j, (i < N)%nat -> (j < N)%nat ->
      entry (IoU.hist s) i j = batches_count bs i j.
Proof.
  intros H. destruct (total_countable N bs H) as [t [Ht [Hs He]]].
  exists {| IoU.num_classes := N; IoU.hist := t |}.
  split; [|split; [reflexivity | exact He]].
  rewrite add_all_total by apply has_shape_zeros.
  cbn [IoU.num_classes IoU.hist IoU.__init__]. rewrite Ht. cbn [bind].
  now rewrite madd_zeros_l.
Qed.

Lemma matrix_counts_pixels_of_all_batches_witness :
  Forall (countable 2) [(grid_pred, grid_target); (two_scores, pixels 1 1)] /\
  exists s,
    IoU.add_all (IoU.__init__ 2) [(grid_pred, grid_target); (two_scores, pixels 1 1)]
    = Ok s /\
    entry (IoU.hist s) 1 0 = 2.
Proof.
  assert (H : Forall (countable 2)
                     [(grid_pred, grid_target); (two_scores, pixels 1 1)]).
  { repeat constructor.
    - exists grid_pred, grid_target. repeat split; try reflexivity.
      simpl. repeat constructor; simpl; lia.
    - exists {| shape := [1; 1; 2]%nat; data := [0; 1] |}, (pixels 1 1).
      repeat split; try reflexivity. simpl. repeat constructor; simpl; lia. }
  split; [exact H|].
  destruct (matrix_counts_pixels_of_all_batches 2 _ H) as [s [Hs [_ He]]].
  exists s. split; [exact Hs|].
  rewrite (He 1%nat 0%nat ltac:(lia) ltac:(lia)). reflexivity.
Defined.

(** ** The mean of the first definition *)

Lemma filter_not_nan_unit (n : nat) (M : matrix) :
  has_shape n n M -> nonneg M ->
  Forall in_unit (filter not_nan (MetricIoU.iou M)).
Proof.
  intros Hs Hn. assert (Hr : length M = n) by apply Hs.
  apply Forall_forall. intros x Hx. apply filter_In in Hx.
  destruct Hx as [Hin Hnn].
  destruct (In_nth _ _ NaN Hin) as [c [Hc <-]].
  rewrite (length_iou n M Hs) in Hc.
  rewrite (nth_iou n M c Hs Hc) in *.
  pose proof (iou_denominator M c Hn ltac:(lia)) as Hd.
  destruct (Z.eq_dec (entry M c c + (vsum (column M c) - entry M c c)
                      + (vsum (nth c M []) - entry M c c)) 0) as [E|E].
  - rewrite E in Hnn. replace (entry M c c) with 0 in Hnn by lia. discriminate.
  - apply true_divide_unit; lia.
Qed.

Lemma filter_not_nan_nil (xs : list npfloat) :
  filter not_nan xs = [] -> Forall (fun x => x = NaN) xs.
Proof.
  induction xs as [|x xs IH]; intros H; [constructor|].
  destruct x; simpl in H; try discriminate. constructor; [reflexivity | now apply IH].
Qed.

(** X17.  On a square matrix of counts the mean IoU of the first
    [value()] is a number between 0 and 1 as soon as one class occurs, and
    NaN only when the IoU of every class is NaN. *)
Theorem first_mean_iou_range (n : nat) (M : matrix) :
  has_shape n n M ->
  nonneg M ->
  exists v m,
    MetricIoU.value_of None M = Ok (v, m) /\
    ((m = NaN /\ Forall (fun x => x = NaN) v) \/ in_unit m).
Proof.
  intros Hs Hn. exists (MetricIoU.iou M), (nanmean (MetricIoU.iou M)).
  split; [reflexivity|].
  pose proof (filter_not_nan_unit n M Hs Hn) as Hu.
  rewrite nanmean_filter.
  destruct (filter not_nan (MetricIoU.iou M)) as [|x xs] eqn:E.
  - left. split; [reflexivity | now apply filter_not_nan_nil].
  - right.
    destruct (replace_nan_unit _ Hu) as [Hrep Hcnt].
    pose proof (nanmean_unit (x :: xs) Hu ltac:(discriminate)) as Hm.
    unfold nanmean in Hm. rewrite Hrep, Hcnt in Hm. exact Hm.
Qed.

Lemma first_mean_iou_range_witness :
  has_shape 2 2 grid_hist /\ nonneg grid_hist /\
  MetricIoU.value_of None grid_hist = Ok ([Fin (1 # 2); Fin (2 # 3)], Fin (7 # 12)) /\
  in_unit (Fin (7 # 12)).
Proof.
  assert (H1 : has_shape 2 2 grid_hist) by (split; [reflexivity | repeat constructor]).
  assert (H2 : nonneg grid_hist) by (repeat constructor; lia).
  split; [exact H1|]. split; [exact H2|]. split; [reflexivity|].
  destruct (first_mean_iou_range 2 grid_hist H1 H2) as [v [m [Hv [[Hm _]|Hm]]]];
    injection Hv as <- <-.
  - discriminate Hm.
  - exact Hm.
Defined.
